(** * financial-flow: the import and classification pipeline of [utils.ts]

    A shallow embedding of the transaction parsers ([parseRevolutCSV],
    [parseMillenniumCSV], the row mapping of [parseGenericXLSX]) and of
    the rule engine ([applyRulesToTransaction]), with the part of the
    JavaScript runtime they call: strings, IEEE-754 binary64 numbers,
    [parseFloat], [Number] and the [Date] constructor.

    Definitions come first (runtime, [types.ts], [utils.ts], the upload
    service of [services/api.ts], the state updates and aggregates of
    [App.tsx], sample data), then the properties of the rule engine, of
    the parsers, of the upload service and of the state updates. *)

From Stdlib Require Import ZArith NArith PeanoNat List Bool Ascii String Lia.
From Stdlib Require Import DecimalString DecimalZ.
From Stdlib Require Import Floats.SpecFloat.
Import ListNotations.

Open Scope string_scope.
Open Scope list_scope.

(* ================================================================== *)
(** ** JavaScript strings

    A string is a sequence of code units; the model keeps the code units
    below 256 (the Latin-1 range), one [ascii] each. *)

Module JsString.

Definition code (c : ascii) : nat := nat_of_ascii c.

(** Upper-case letters of the Latin-1 range: A-Z, and U+00C0-U+00DE
    without the multiplication sign U+00D7.  Each has its lower-case
    form 32 code points above. *)
Definition is_upper (c : ascii) : bool :=
  let n := code c in
  (((65 <=? n) && (n <=? 90))
   || ((192 <=? n) && (n <=? 222) && negb (n =? 215)))%nat.

Definition lower_char (c : ascii) : ascii :=
  if is_upper c then ascii_of_nat (code c + 32) else c.

(** [String.prototype.toLowerCase] *)
Fixpoint toLowerCase (s : string) : string :=
  match s with
  | EmptyString => EmptyString
  | String c r => String (lower_char c) (toLowerCase r)
  end.

(** [s.startsWith(p)] *)
Fixpoint startsWith (s p : string) {struct p} : bool :=
  match p with
  | EmptyString => true
  | String pc pr =>
      match s with
      | EmptyString => false
      | String sc sr => Ascii.eqb sc pc && startsWith sr pr
      end
  end.

(** [s.includes(k)]: [k] occurs at some position of [s]. *)
Fixpoint includes (s k : string) : bool :=
  startsWith s k ||
  match s with
  | EmptyString => false
  | String _ r => includes r k
  end.

(** [s.split(sep)] for a separator of one code unit. *)
Fixpoint split (sep : ascii) (s : string) : list string :=
  match s with
  | EmptyString => [EmptyString]
  | String c r =>
      if Ascii.eqb c sep then EmptyString :: split sep r
      else match split sep r with
           | [] => [String c EmptyString]
           | w :: ws => String c w :: ws
           end
  end.

(** [s.replace(a, b)] for one-unit strings [a] and [b]: the first
    occurrence only. *)
Fixpoint replaceFirst (a b : ascii) (s : string) : string :=
  match s with
  | EmptyString => EmptyString
  | String c r => if Ascii.eqb c a then String b r
                  else String c (replaceFirst a b r)
  end.

(** [s.replace(/a/g, '')]: every occurrence of the unit [a] removed. *)
Fixpoint removeAll (a : ascii) (s : string) : string :=
  match s with
  | EmptyString => EmptyString
  | String c r => if Ascii.eqb c a then removeAll a r
                  else String c (removeAll a r)
  end.

(** White space and line terminators of the Latin-1 range: TAB, LF, VT,
    FF, CR, SP and NBSP. *)
Definition is_space (c : ascii) : bool :=
  let n := code c in
  (((9 <=? n) && (n <=? 13)) || (n =? 32) || (n =? 160))%nat.

Fixpoint trimStart (s : string) : string :=
  match s with
  | EmptyString => EmptyString
  | String c r => if is_space c then trimStart r else s
  end.

Fixpoint trimEnd (s : string) : string :=
  match s with
  | EmptyString => EmptyString
  | String c r =>
      match trimEnd r with
      | EmptyString => if is_space c then EmptyString
                       else String c EmptyString
      | r' => String c r'
      end
  end.

Definition trim (s : string) : string := trimEnd (trimStart s).

(** Truthiness of a string: the empty string is the only falsy one. *)
Definition truthy (s : string) : bool :=
  match s with EmptyString => false | _ => true end.

(** [a || b] on strings. *)
Definition or_else (a b : string) : string := if truthy a then a else b.

(** The decimal form of an integer, as a template literal prints it. *)
Definition of_Z (z : Z) : string := NilEmpty.string_of_int (Z.to_int z).
Definition of_nat (n : nat) : string := of_Z (Z.of_nat n).

End JsString.

(* ================================================================== *)
(** ** JavaScript numbers: IEEE-754 binary64 *)

Module JsNumber.

Definition prec : Z := 53.
Definition emax : Z := 1024.

Definition number : Type := spec_float.

Definition NaN : number := S754_nan.
Definition zero : number := S754_zero false.
Definition infinity (neg : bool) : number := S754_infinity neg.

(** The number nearest to an integer (ties to even). *)
Definition of_Z (z : Z) : number := binary_normalize prec emax z 0 false.

Definition add (x y : number) : number := SFadd prec emax x y.
Definition sub (x y : number) : number := SFsub prec emax x y.
Definition abs (x : number) : number := SFabs x.
(** [x < y] and [x > y]; both are false when an operand is NaN. *)
Definition ltb (x y : number) : bool := SFltb x y.
Definition gtb (x y : number) : bool := SFltb y x.
(** [x >= y] *)
Definition geb (x y : number) : bool := SFleb y x.

Definition isNaN (x : number) : bool :=
  match x with S754_nan => true | _ => false end.

(** Two infinities of opposite sign. *)
Definition opposite_infinities (x y : number) : bool :=
  match x, y with
  | S754_infinity sx, S754_infinity sy => xorb sx sy
  | _, _ => false
  end.

Definition isFinite (x : number) : bool :=
  match x with S754_zero _ | S754_finite _ _ _ => true | _ => false end.

(** The number nearest to [m * 10^e] (ties to even), for a sign, a
    magnitude and a decimal exponent: the value of a decimal literal.  The
    quotient by a power of ten is rounded once, from the exact integers.
    (For a literal of more than 20 significant digits the language also
    admits the value of the literal cut after the 20th digit; the nearest
    number is what engines give.) *)
Definition of_decimal (neg : bool) (m : N) (e : Z) : number :=
  match m with
  | N0 => S754_zero neg
  | Npos p =>
      match e with
      | Zneg k =>
          SFdiv prec emax (S754_finite neg p 0)
                (S754_finite false (Pos.pow 10 k) 0)
      | _ => binary_round prec emax neg (p * Z.to_pos (10 ^ e)) 0
      end
  end.

(** [x] is the rational [p / q], exactly. *)
Definition is_ratio (x : number) (p : Z) (q : positive) : bool :=
  match x with
  | S754_zero _ => (p =? 0)%Z
  | S754_finite s m e =>
      let sm := cond_Zopp s (Zpos m) in
      match e with
      | Zneg k => (sm * Zpos q =? p * Zpos (Pos.pow 2 k))%Z
      | _ => (sm * 2 ^ e * Zpos q =? p)%Z
      end
  | _ => false
  end.

(** The integer part of a finite number (truncation towards zero). *)
Definition trunc (x : number) : option Z :=
  match x with
  | S754_zero _ => Some 0%Z
  | S754_finite s m e =>
      Some (cond_Zopp s (match e with
                         | Zneg k => Z.shiftr (Zpos m) (Zpos k)
                         | _ => Z.shiftl (Zpos m) e
                         end))
  | _ => None
  end.

(** *** Numeric literals in strings *)

Definition digit_of (c : ascii) : option N :=
  let n := N_of_ascii c in
  if ((48 <=? n) && (n <=? 57))%N then Some (n - 48)%N else None.

(** Reads the longest run of decimal digits at the head of [s], adding
    them to [acc]; returns the value, the number of digits read and the
    rest of the string. *)
Fixpoint scan_digits (acc : N) (cnt : nat) (s : string) : N * nat * string :=
  match s with
  | EmptyString => (acc, cnt, s)
  | String c r =>
      match digit_of c with
      | Some d => scan_digits (10 * acc + d)%N (S cnt) r
      | None => (acc, cnt, s)
      end
  end.

(** An optional ExponentPart: [e] or [E], an optional sign, at least one
    digit.  Without one the exponent is 0 and nothing is consumed. *)
Definition scan_exponent (s : string) : Z * string :=
  match s with
  | String c r =>
      if Ascii.eqb c "e" || Ascii.eqb c "E" then
        let '(neg, r') :=
          match r with
          | String "+" r' => (false, r')
          | String "-" r' => (true, r')
          | _ => (false, r)
          end in
        let '(v, n, r'') := scan_digits 0 0 r' in
        match n with
        | O => (0%Z, s)
        | _ => (if neg then Z.opp (Z.of_N v) else Z.of_N v, r'')
        end
      else (0%Z, s)
  | EmptyString => (0%Z, s)
  end.

Inductive decimal : Type :=
| DecInfinity
| DecFinite (m : N) (e : Z).

(** The longest prefix of [s] that is a StrUnsignedDecimalLiteral. *)
Definition scan_unsigned (s : string) : option (decimal * string) :=
  if JsString.startsWith s "Infinity" then
    Some (DecInfinity, substring 8 (String.length s - 8) s)
  else
    let '(ip, n1, r1) := scan_digits 0 0 s in
    match r1 with
    | String "." r2 =>
        let '(m, n2, r3) := scan_digits ip 0 r2 in
        match n1, n2 with
        | O, O => None
        | _, _ =>
            let '(ex, r4) := scan_exponent r3 in
            Some (DecFinite m (ex - Z.of_nat n2), r4)
        end
    | _ =>
        match n1 with
        | O => None
        | _ => let '(ex, r4) := scan_exponent r1 in
               Some (DecFinite ip ex, r4)
        end
    end.

(** The longest prefix of [s] that is a StrDecimalLiteral: its value and
    the rest of the string. *)
Definition scan_decimal (s : string) : option (number * string) :=
  let '(neg, r) :=
    match s with
    | String "+" r => (false, r)
    | String "-" r => (true, r)
    | _ => (false, s)
    end in
  match scan_unsigned r with
  | Some (DecInfinity, rest) => Some (infinity neg, rest)
  | Some (DecFinite m e, rest) => Some (of_decimal neg m e, rest)
  | None => None
  end.

(** [parseFloat(s)] *)
Definition parseFloat (s : string) : number :=
  match scan_decimal (JsString.trimStart s) with
  | Some (v, _) => v
  | None => NaN
  end.

(** Digits of a NonDecimalIntegerLiteral in the given radix. *)
Definition radix_digit (radix : N) (c : ascii) : option N :=
  let n := N_of_ascii c in
  let d := if ((48 <=? n) && (n <=? 57))%N then Some (n - 48)%N
           else if ((97 <=? n) && (n <=? 102))%N then Some (n - 87)%N
           else if ((65 <=? n) && (n <=? 70))%N then Some (n - 55)%N
           else None in
  match d with
  | Some v => if (v <? radix)%N then Some v else None
  | None => None
  end.

Fixpoint scan_radix (radix : N) (acc : N) (s : string) : option N :=
  match s with
  | EmptyString => Some acc
  | String c r =>
      match radix_digit radix c with
      | Some d => scan_radix radix (radix * acc + d)%N r
      | None => None
      end
  end.

Definition non_decimal (s : string) : option (N * string) :=
  match s with
  | String "0" (String c r) =>
      if Ascii.eqb c "x" || Ascii.eqb c "X" then Some (16%N, r)
      else if Ascii.eqb c "o" || Ascii.eqb c "O" then Some (8%N, r)
      else if Ascii.eqb c "b" || Ascii.eqb c "B" then Some (2%N, r)
      else None
  | _ => None
  end.

(** [Number(s)] on a string: the whole trimmed string must be a numeric
    literal; the empty string is 0. *)
Definition of_string (s : string) : number :=
  let t := JsString.trim s in
  match t with
  | EmptyString => zero
  | _ =>
      match non_decimal t with
      | Some (radix, ds) =>
          match ds with
          | EmptyString => NaN
          | _ => match scan_radix radix 0 ds with
                 | Some v => of_Z (Z.of_N v)
                 | None => NaN
                 end
          end
      | None =>
          match scan_decimal t with
          | Some (v, EmptyString) => v
          | _ => NaN
          end
      end
  end.

(** [Number(x)] where [x] may be [undefined]. *)
Definition Number (x : option string) : number :=
  match x with
  | Some s => of_string s
  | None => NaN
  end.

End JsNumber.

(* ================================================================== *)
(** ** JavaScript dates *)

Module JsDate.

Import JsNumber.

(** A [Date] object, by the constructor call that made it:
    [new Date(s)] on a string (what the string denotes is left to the
    runtime's date parser), [new Date(t)] on a number, the time value, and
    [new Date(year, monthIndex, day)]. *)
Inductive Date : Type :=
| DateOfString (s : string)
| DateOfTime (t : number)
| DateOfParts (year monthIndex day : number).

(** Days from 1970-01-01 to the first [day] of month [m] (1..12) of the
    proleptic Gregorian year [y], and back. *)
Definition days_from_civil (y m d : Z) : Z :=
  let y' := if (m <=? 2)%Z then (y - 1)%Z else y in
  let era := (y' / 400)%Z in
  let yoe := (y' - era * 400)%Z in
  let mp := if (m >? 2)%Z then (m - 3)%Z else (m + 9)%Z in
  let doy := ((153 * mp + 2) / 5 + d - 1)%Z in
  let doe := (yoe * 365 + yoe / 4 - yoe / 100 + doy)%Z in
  (era * 146097 + doe - 719468)%Z.

Definition civil_from_days (z : Z) : Z * Z * Z :=
  let z' := (z + 719468)%Z in
  let era := (z' / 146097)%Z in
  let doe := (z' - era * 146097)%Z in
  let yoe := ((doe - doe / 1460 + doe / 36524 - doe / 146096) / 365)%Z in
  let doy := (doe - (365 * yoe + yoe / 4 - yoe / 100))%Z in
  let mp := ((5 * doy + 2) / 153)%Z in
  let d := (doy - (153 * mp + 2) / 5 + 1)%Z in
  let m := if (mp <? 10)%Z then (mp + 3)%Z else (mp - 9)%Z in
  ((if (m <=? 2)%Z then yoe + era * 400 + 1 else yoe + era * 400)%Z, m, d).

(** MakeFullYear and MakeDay: the day number of a date given by parts;
    a year 0..99 counts from 1900, months and days out of range carry
    over.  [None] is the invalid date. *)
Definition make_day (year monthIndex day : number) : option Z :=
  match trunc year, trunc monthIndex, trunc day with
  | Some y, Some m, Some dt =>
      let yr := if ((0 <=? y) && (y <=? 99))%Z then (1900 + y)%Z else y in
      let ym := (yr + m / 12)%Z in
      let mn := (m mod 12)%Z in
      let dn := (days_from_civil ym (mn + 1) 1 + dt - 1)%Z in
      if (Z.abs dn <=? 100000000)%Z then Some dn else None
  | _, _, _ => None
  end.

(** The local calendar day of a date made from parts, as
    [getFullYear()], [getMonth()] and [getDate()] read it back in a time
    zone where that local midnight exists (the offset of the zone then
    cancels between constructor and getters). *)
Definition calendar (d : Date) : option (Z * Z * Z) :=
  match d with
  | DateOfParts y m dt =>
      match make_day y m dt with
      | Some dn => let '(yy, mm, dd) := civil_from_days dn in
                   Some (yy, (mm - 1)%Z, dd)
      | None => None
      end
  | DateOfString _ | DateOfTime _ => None
  end.

End JsDate.

Import JsString JsNumber JsDate.

(* ================================================================== *)
(** ** types.ts *)

Module Category.
Inductive t : Type :=
| Food | Transport | Shopping | Entertainment | Health
| Utilities | Income | Education | Feira | Other.

Definition eqb (a b : t) : bool :=
  match a, b with
  | Food, Food | Transport, Transport | Shopping, Shopping
  | Entertainment, Entertainment | Health, Health
  | Utilities, Utilities | Income, Income | Education, Education
  | Feira, Feira | Other, Other => true
  | _, _ => false
  end.
End Category.
Definition Category : Type := Category.t.

Inductive Source : Type := Manual | Revolut | Millennium | XLSX.

Inductive TxType : Type := Expense | Income.

Record Transaction : Type := mkTransaction {
  id : string;
  date : Date;
  description : string;
  amount : number;
  category : Category;
  source : Source;
  type : TxType;
  ignored : option bool   (* [None]: the field is undefined *)
}.

Inductive RuleType : Type := exact | starts_with.

Record AutoRule : Type := mkAutoRule {
  rule_id : string;
  pattern : string;
  rule_type : RuleType;
  targetCategory : option Category;
  shouldIgnore : option bool
}.

(* ================================================================== *)
(** ** utils.ts: the rule engine *)

(** The entries of the object literal, in insertion order (the order of
    [Object.entries] for keys that are not array indices). *)
Definition DEFAULT_CATEGORY_MAP : list (string * Category) :=
  [ ("uber", Category.Transport);
    ("bolt", Category.Transport);
    ("continente", Category.Food);
    ("pingo doce", Category.Food);
    ("lidl", Category.Food);
    ("auchan", Category.Food);
    ("netflix", Category.Entertainment);
    ("spotify", Category.Entertainment);
    ("amazon", Category.Shopping);
    ("zara", Category.Shopping);
    ("ikea", Category.Shopping);
    ("edp", Category.Utilities);
    ("galp", Category.Utilities);
    ("vodafone", Category.Utilities);
    ("salary", Category.Income);
    ("vencimento", Category.Income);
    ("refeicao", Category.Income) ].

(** The test of one rule against the lower-cased description. *)
Definition rule_match (desc : string) (rule : AutoRule) : bool :=
  let pattern := toLowerCase (pattern rule) in
  match rule_type rule with
  | exact => String.eqb desc pattern
  | starts_with => startsWith desc pattern
  end.

(** The object returned on a match:
    [{...tx, category: rule.targetCategory || tx.category,
      ignored: rule.shouldIgnore !== undefined ? rule.shouldIgnore : tx.ignored}]. *)
Definition rule_result (tx : Transaction) (rule : AutoRule) : Transaction :=
  {| id := id tx;
     date := date tx;
     description := description tx;
     amount := amount tx;
     category := match targetCategory rule with
                 | Some c => c
                 | None => category tx
                 end;
     source := source tx;
     type := type tx;
     ignored := match shouldIgnore rule with
                | Some b => Some b
                | None => ignored tx
                end |}.

(** [{...tx, category}] *)
Definition with_category (tx : Transaction) (c : Category) : Transaction :=
  {| id := id tx;
     date := date tx;
     description := description tx;
     amount := amount tx;
     category := c;
     source := source tx;
     type := type tx;
     ignored := ignored tx |}.

(** The loop over the user rules; [None] when it runs to its end. *)
Fixpoint scan_rules (tx : Transaction) (desc : string) (rules : list AutoRule)
  : option Transaction :=
  match rules with
  | [] => None
  | rule :: rest =>
      if rule_match desc rule then Some (rule_result tx rule)
      else scan_rules tx desc rest
  end.

(** The loop over the entries of the default map. *)
Fixpoint scan_map (tx : Transaction) (desc : string)
         (entries : list (string * Category)) : option Transaction :=
  match entries with
  | [] => None
  | (key, category) :: rest =>
      if includes desc key then Some (with_category tx category)
      else scan_map tx desc rest
  end.

Definition applyRulesToTransaction (tx : Transaction) (rules : list AutoRule)
  : Transaction :=
  let desc := toLowerCase (description tx) in
  match scan_rules tx desc rules with
  | Some r => r
  | None =>
      if Category.eqb (category tx) Category.Other then
        match scan_map tx desc DEFAULT_CATEGORY_MAP with
        | Some r => r
        | None => tx
        end
      else tx
  end.

(* ================================================================== *)
(** ** utils.ts: the parsers

    [Date.now()] is read once for each pushed transaction; [now i] is the
    reading in iteration [i] of the loop. *)

Definition col (cols : list string) (k : nat) : string := nth k cols "".

Definition opt_list {A : Type} (o : option A) : list A :=
  match o with Some a => [a] | None => [] end.

(** The body of the loop of [parseRevolutCSV] on line [i]: the pushed
    transaction, or [None] where the loop continues without one. *)
Definition revolut_row (now : Z) (i : nat) (line : string)
  : option Transaction :=
  let cols := split "," line in
  if (List.length cols <? 6)%nat then None
  else
    let amount := parseFloat (col cols 5) in
    let dateStr := or_else (col cols 3) (col cols 2) in
    let desc := removeAll "034" (col cols 4) in
    if isNaN amount then None
    else Some {| id := "rev-" ++ JsString.of_nat i ++ "-" ++ JsString.of_Z now;
                 date := DateOfString dateStr;
                 description := desc;
                 amount := abs amount;
                 category := Category.Other;
                 source := Revolut;
                 type := if ltb amount zero then Expense else Income;
                 ignored := None |}.

(** [for (let i = 1; i < lines.length; i++)] over a loop body that may
    push one transaction. *)
Definition rows_from_1 (body : nat -> string -> option Transaction)
           (lines : list string) : list Transaction :=
  flat_map (fun i => opt_list (body i (nth i lines "")))
           (seq 1 (List.length lines - 1)).

Definition parseRevolutCSV (now : nat -> Z) (text : string)
  : list Transaction :=
  let lines := split "010" text in
  rows_from_1 (fun i line => revolut_row (now i) i line) lines.

(** [cols[k]?.replace(',', '.') || '0'] *)
Definition decimal_field (cols : list string) (k : nat) : string :=
  match nth_error cols k with
  | Some s => or_else (replaceFirst "," "." s) "0"
  | None => "0"
  end.

Definition millennium_row (now : Z) (i : nat) (line : string)
  : option Transaction :=
  let cols := split ";" line in
  if (List.length cols <? 5)%nat then None
  else
    let dateStr := col cols 0 in
    let desc := col cols 2 in
    let debit := parseFloat (decimal_field cols 3) in
    let credit := parseFloat (decimal_field cols 4) in
    if negb (truthy dateStr) || isNaN (add debit credit) then None
    else
      let parts := split "-" dateStr in
      let day := nth_error parts 0 in
      let month := nth_error parts 1 in
      let year := nth_error parts 2 in
      let date := DateOfParts (Number year)
                              (sub (Number month) (JsNumber.of_Z 1))
                              (Number day) in
      Some {| id := "mil-" ++ JsString.of_nat i ++ "-" ++ JsString.of_Z now;
              date := date;
              description := desc;
              amount := if gtb debit zero then debit else credit;
              category := Category.Other;
              source := Millennium;
              type := if gtb debit zero then Expense else Income;
              ignored := None |}.

Definition parseMillenniumCSV (now : nat -> Z) (text : string)
  : list Transaction :=
  let lines := split "010" text in
  rows_from_1 (fun i line => millennium_row (now i) i line) lines.

(** *** The spreadsheet rows

    [parseGenericXLSX] reads the file and hands the first sheet to
    [XLSX.utils.sheet_to_json]; the embedding starts from the array [json]
    that call returns.  A row is an object, here its own properties in the
    order of [Object.keys]; a cell is a string, a number or a boolean.
    [num_str] is [String] on numbers. *)

Inductive cell : Type :=
| CellString (s : string)
| CellNumber (n : number)
| CellBool (b : bool).

Definition row : Type := list (string * cell).

Fixpoint get (r : row) (k : string) : option cell :=
  match r with
  | [] => None
  | (k', v) :: rest => if String.eqb k' k then Some v else get rest k
  end.

(** [row[key]] where [key] may be [undefined], which names the property
    "undefined". *)
Definition get_key (r : row) (key : option string) : option cell :=
  get r (match key with Some k => k | None => "undefined" end).

(** [String(v)] *)
Definition to_String (num_str : number -> string) (v : option cell)
  : string :=
  match v with
  | None => "undefined"
  | Some (CellString s) => s
  | Some (CellNumber n) => num_str n
  | Some (CellBool true) => "true"
  | Some (CellBool false) => "false"
  end.

(** [new Date(v)] *)
Definition date_of_value (v : option cell) : Date :=
  match v with
  | None => DateOfTime NaN
  | Some (CellString s) => DateOfString s
  | Some (CellNumber n) => DateOfTime n
  | Some (CellBool b) => DateOfTime (JsNumber.of_Z (if b then 1 else 0))
  end.

(** [keys.find(p) || keys[fallback]] *)
Definition find_key (p : string -> bool) (keys : list string)
           (fallback : nat) : option string :=
  match find p keys with
  | Some k => if truthy k then Some k else nth_error keys fallback
  | None => nth_error keys fallback
  end.

Definition xlsx_row (num_str : number -> string) (now : Z) (i : nat)
           (r : row) : Transaction :=
  let keys := map fst r in
  let has (w : string) (k : string) := includes (toLowerCase k) w in
  let dateKey := find_key (fun k => has "data" k || has "date" k) keys 0 in
  let descKey := find_key (fun k => has "desc" k || has "info" k) keys 1 in
  let amountKey :=
    find_key (fun k => has "val" k || has "amount" k || has "quant" k)
             keys 2 in
  let amount :=
    parseFloat (replaceFirst "," "."
                  (to_String num_str (get_key r amountKey))) in
  {| id := "xls-" ++ JsString.of_nat i ++ "-" ++ JsString.of_Z now;
     date := date_of_value (get_key r dateKey);
     description := to_String num_str (get_key r descKey);
     amount := abs amount;
     category := Category.Other;
     source := XLSX;
     type := if ltb amount zero then Expense else Income;
     ignored := None |}.

(** [json.map((row, i) => ...).filter(t => !isNaN(t.amount) && t.description)] *)
Definition parseGenericXLSX (num_str : number -> string) (now : nat -> Z)
           (json : list row) : list Transaction :=
  filter (fun t => negb (isNaN (amount t)) && truthy (description t))
         (map (fun ir => xlsx_row num_str (now (fst ir)) (fst ir) (snd ir))
              (combine (seq 0 (List.length json)) json)).

Definition LF : string := String "010" EmptyString.

(** The code unit [c] does not occur in [s]. *)
Fixpoint no_char (c : ascii) (s : string) : bool :=
  match s with
  | EmptyString => true
  | String a r => negb (Ascii.eqb a c) && no_char c r
  end.

(** The transactions pushed for the lines [ls] when they are the lines 1,
    2, ... of a text. *)
Definition rows_of_rest (body : nat -> string -> option Transaction)
           (ls : list string) : list Transaction :=
  flat_map (fun k => opt_list (body (S k) (nth k ls "")))
           (seq 0 (List.length ls)).

(** *** Sample data *)

Definition sample_tx (d : string) (c : Category) : Transaction :=
  {| id := "manual-1";
     date := DateOfString "2024-01-05";
     description := d;
     amount := JsNumber.of_Z 10;
     category := c;
     source := Manual;
     type := Expense;
     ignored := None |}.

Definition sample_rule (p : string) (m : RuleType) (c : option Category)
           (ig : option bool) : AutoRule :=
  {| rule_id := "r"; pattern := p; rule_type := m;
     targetCategory := c; shouldIgnore := ig |}.

(** A Millennium export: the header line and single data rows. *)
Definition millennium_header : string :=
  "Data lancamento;Data valor;Descricao;Debito;Credito".
Definition pingo_doce_row : string := "05-01-2024;;Pingo Doce;12,50;".
Definition negative_credit_row : string := "05-01-2024;;Estorno;;-12,50".
Definition bad_debit_row : string := "05-01-2024;;Cafe;abc;5,00".

(** A Revolut export: the header line and a row whose completed date
    (column 3) is empty. *)
Definition revolut_header : string :=
  "Type,Product,Started Date,Completed Date,Description,Amount".
Definition pending_row : string := "CARD,Current,2024-01-04,,Coffee,-3.50".

(** What the parsers push for these rows when they are line 1. *)
Definition pending_tx (now : Z) : Transaction :=
  {| id := "rev-1-" ++ JsString.of_Z now;
     date := DateOfString "2024-01-04";
     description := "Coffee";
     amount := S754_finite false 7881299347898368 (-51);
     category := Category.Other;
     source := Revolut;
     type := Expense;
     ignored := None |}.

Definition pingo_doce_tx (now : Z) : Transaction :=
  {| id := "mil-1-" ++ JsString.of_Z now;
     date := DateOfParts (JsNumber.of_Z 2024) zero (JsNumber.of_Z 5);
     description := "Pingo Doce";
     amount := S754_finite false 7036874417766400 (-49);
     category := Category.Other;
     source := Millennium;
     type := Expense;
     ignored := None |}.

Definition negative_credit_tx (now : Z) : Transaction :=
  {| id := "mil-1-" ++ JsString.of_Z now;
     date := DateOfParts (JsNumber.of_Z 2024) zero (JsNumber.of_Z 5);
     description := "Estorno";
     amount := S754_finite true 7036874417766400 (-49);
     category := Category.Other;
     source := Millennium;
     type := Income;
     ignored := None |}.

(** The lower-cased description the engine matches against. *)
Definition desc_of (tx : Transaction) : string := toLowerCase (description tx).

(* ================================================================== *)
(** * The rule engine *)

(* ================================================================== *)
(** ** services/api.ts: the upload service

    The body of [uploadFileService] once [file.text()] has given the text:
    the choice of parser by file name and content, the rejection of an
    empty result (the thrown error, caught and turned into a response) and
    the rule pass.  The delay and the promise are left out. *)

Record UploadResponse : Type := mkUploadResponse {
  success : bool;
  message : string;
  data : option (list Transaction)   (* [None]: the field is absent *)
}.

(** "Formato de arquivo não reconhecido ou vazio." *)
Definition empty_file_message : string :=
  "Formato de arquivo n" ++ String "227" "o reconhecido ou vazio.".

(** " transações importadas com sucesso!" *)
Definition imported_suffix : string :=
  " transa" ++ String "231" (String "245" "es importadas com sucesso!").

(** [if (fileName.includes('revolut')) ... else if (...) ... else ...] *)
Definition upload_parse (now : nat -> Z) (name text : string)
  : list Transaction :=
  let fileName := toLowerCase name in
  if includes fileName "revolut" then parseRevolutCSV now text
  else if includes fileName "millennium" || includes text ";"
       then parseMillenniumCSV now text
       else parseRevolutCSV now text.

Definition uploadFileService (now : nat -> Z) (name text : string)
           (autoRules : list AutoRule) : UploadResponse :=
  let parsed := upload_parse now name text in
  if (List.length parsed =? 0)%nat then
    {| success := false; message := empty_file_message; data := None |}
  else
    let enrichedData :=
      map (fun t => applyRulesToTransaction t autoRules) parsed in
    {| success := true;
       message := JsString.of_nat (List.length enrichedData)
                  ++ imported_suffix;
       data := Some enrichedData |}.

(* ================================================================== *)
(** ** App.tsx: the state updates and the aggregates

    Each [setTransactions(prev => ...)] and [setAutoRules(prev => ...)]
    is the function it applies to the previous state. *)

(** [!t.ignored] *)
Definition not_ignored (t : Transaction) : bool :=
  match ignored t with
  | Some true => false
  | _ => true
  end.

(** The effect on rule changes:
    [prev.map(t => applyRulesToTransaction(t, autoRules))]. *)
Definition reclassify (autoRules : list AutoRule)
           (transactions : list Transaction) : list Transaction :=
  map (fun t => applyRulesToTransaction t autoRules) transactions.

(** [prev.filter(t => t.id !== id)] *)
Definition deleteTransaction (id0 : string)
           (transactions : list Transaction) : list Transaction :=
  filter (fun t => negb (String.eqb (id t) id0)) transactions.

(** [{ ...t, ignored: !t.ignored }] *)
Definition flip_ignored (t : Transaction) : Transaction :=
  {| id := id t;
     date := date t;
     description := description t;
     amount := amount t;
     category := category t;
     source := source t;
     type := type t;
     ignored := Some (not_ignored t) |}.

(** [prev.map(t => t.id === id ? { ...t, ignored: !t.ignored } : t)] *)
Definition toggleIgnore (id0 : string)
           (transactions : list Transaction) : list Transaction :=
  map (fun t => if String.eqb (id t) id0 then flip_ignored t else t)
      transactions.

Inductive RuleAction : Type := action_category | action_ignore.

(** The rule [createRuleFromTx] builds, and the state it sets:
    [[...prev, newRule]]. *)
Definition newRule (now : Z) (tx : Transaction) (ty : RuleType)
           (action : RuleAction) : AutoRule :=
  {| rule_id := "rule-" ++ JsString.of_Z now;
     pattern := description tx;
     rule_type := ty;
     targetCategory := match action with
                       | action_category => Some (category tx)
                       | action_ignore => None
                       end;
     shouldIgnore := match action with
                     | action_ignore => Some true
                     | action_category => None
                     end |}.

Definition createRuleFromTx (now : Z) (tx : Transaction) (ty : RuleType)
           (action : RuleAction) (autoRules : list AutoRule)
  : list AutoRule :=
  autoRules ++ [newRule now tx ty action].

(** [prev.filter(r => r.id !== rule.id)] *)
Definition deleteRule (id0 : string) (autoRules : list AutoRule)
  : list AutoRule :=
  filter (fun r => negb (String.eqb (rule_id r) id0)) autoRules.

Record Totals : Type := mkTotals { income : number; expense : number }.

(** The callback of the [reduce] in [totals]. *)
Definition totals_step (acc : Totals) (t : Transaction) : Totals :=
  match type t with
  | Income => {| income := add (income acc) (amount t);
                 expense := expense acc |}
  | Expense => {| income := income acc;
                  expense := add (expense acc) (amount t) |}
  end.

Definition totals (transactions : list Transaction) : Totals :=
  fold_left totals_step (filter not_ignored transactions)
            {| income := zero; expense := zero |}.

(** [v || 0] on a number that may be undefined: 0, -0 and NaN are
    falsy. *)
Definition or_zero (v : option number) : number :=
  match v with
  | Some (S754_zero _) | Some S754_nan | None => zero
  | Some x => x
  end.

(** [map[c] = (map[c] || 0) + a] on an object whose keys are category
    names, kept in insertion order. *)
Fixpoint bump (m : list (Category * number)) (c : Category) (a : number)
  : list (Category * number) :=
  match m with
  | [] => [(c, add (or_zero None) a)]
  | (c', v) :: rest =>
      if Category.eqb c' c then (c', add (or_zero (Some v)) a) :: rest
      else (c', v) :: bump rest c a
  end.

(** The entries of the per-category sums of the expenses that are not
    ignored. *)
Definition categoryData (transactions : list Transaction)
  : list (Category * number) :=
  fold_left (fun m t => bump m (category t) (amount t))
            (filter (fun t => match type t with
                              | Expense => not_ignored t
                              | Income => false
                              end) transactions)
            [].

(** The transactions [rows_from_1] pushes for the lines [ls] when they
    follow [n] earlier lines. *)
Definition rows_at (body : nat -> string -> option Transaction) (n : nat)
           (ls : list string) : list Transaction :=
  flat_map (fun k => opt_list (body (n + k)%nat (nth k ls "")))
           (seq 0 (List.length ls)).

Definition CR : string := String "013" EmptyString.

(** Two rules that agree up to their ids and the letter case of their
    patterns. *)
Definition same_rule (r r' : AutoRule) : Prop :=
  toLowerCase (pattern r) = toLowerCase (pattern r') /\
  rule_type r = rule_type r' /\
  targetCategory r = targetCategory r' /\
  shouldIgnore r = shouldIgnore r'.

Section StringTests.

Local Open Scope string_scope.

(** [startsWith] holds exactly of the strings that begin with [p]. *)
Lemma startsWith_spec (s p : string) :
  startsWith s p = true <-> exists rest, s = p ++ rest.
Proof.
  revert s. induction p as [|pc pr IH]; intros s; simpl.
  - split; [intros _; now exists s | reflexivity].
  - destruct s as [|sc sr].
    + split; [discriminate | intros [rest H]; discriminate].
    + rewrite andb_true_iff, Ascii.eqb_eq, IH. split.
      * intros [-> [rest ->]]. now exists rest.
      * intros [rest H]. injection H as -> ->. split; [reflexivity|].
        now exists rest.
Qed.

(** [includes] holds exactly of the strings in which [k] occurs. *)
Lemma includes_spec (s k : string) :
  includes s k = true <-> exists a b, s = a ++ k ++ b.
Proof.
  induction s as [|c r IH].
  - simpl. rewrite orb_false_r, startsWith_spec. split.
    + intros [rest H]. now exists "", rest.
    + intros (a & b & H). destruct a; [now exists b | discriminate].
  - change (includes (String c r) k)
      with (startsWith (String c r) k || includes r k).
    rewrite orb_true_iff, startsWith_spec, IH. split.
    + intros [[rest H]|(a & b & H)].
      * now exists "", rest.
      * exists (String c a), b. simpl. now rewrite H.
    + intros (a & b & H). destruct a as [|c' a].
      * left. now exists b.
      * right. simpl in H. injection H as _ ->. now exists a, b.
Qed.

(** A rule matches by equality in exact mode and by prefix otherwise,
    both against its lower-cased pattern. *)
Lemma rule_match_spec (d : string) (rule : AutoRule) :
  rule_match d rule = true <->
  match rule_type rule with
  | exact => d = toLowerCase (pattern rule)
  | starts_with => exists rest, d = toLowerCase (pattern rule) ++ rest
  end.
Proof.
  unfold rule_match. destruct (rule_type rule).
  - apply String.eqb_eq.
  - apply startsWith_spec.
Qed.

End StringTests.

Section FirstMatch.

Context {A : Type} (f : A -> bool).

Lemma find_first (pre : list A) (x : A) (post : list A) :
  existsb f pre = false -> f x = true ->
  find f (pre ++ x :: post) = Some x.
Proof.
  induction pre as [|a pre IH]; simpl; intros Hpre Hx.
  - now rewrite Hx.
  - apply orb_false_iff in Hpre as [Ha Hpre]. rewrite Ha. now apply IH.
Qed.

Lemma find_none_existsb (l : list A) :
  existsb f l = false -> find f l = None.
Proof.
  induction l as [|a l IH]; simpl; [reflexivity|].
  intros H. apply orb_false_iff in H as [Ha Hl]. rewrite Ha. now apply IH.
Qed.

End FirstMatch.

Section RuleEngine.

(** The loop over the rules stops at the first rule that [find]
    selects. *)
Lemma scan_rules_find (t : Transaction) (d : string) (rs : list AutoRule) :
  scan_rules t d rs =
  match find (rule_match d) rs with
  | Some rule => Some (rule_result t rule)
  | None => None
  end.
Proof.
  induction rs as [|rule rest IH]; simpl; [reflexivity|].
  destruct (rule_match d rule); [reflexivity | exact IH].
Qed.

Lemma scan_map_find (t : Transaction) (d : string)
      (entries : list (string * Category)) :
  scan_map t d entries =
  match find (fun e => includes d (fst e)) entries with
  | Some e => Some (with_category t (snd e))
  | None => None
  end.
Proof.
  induction entries as [|[k c] rest IH]; simpl; [reflexivity|].
  destruct (includes d k); [reflexivity | exact IH].
Qed.

Lemma scan_rules_none (t : Transaction) (d : string) (rs : list AutoRule) :
  existsb (rule_match d) rs = false -> scan_rules t d rs = None.
Proof.
  intros H. rewrite scan_rules_find, find_none_existsb; auto.
Qed.

Lemma rule_result_twice (t : Transaction) (r : AutoRule) :
  rule_result (rule_result t r) r = rule_result t r.
Proof.
  unfold rule_result; simpl.
  destruct (targetCategory r), (shouldIgnore r); reflexivity.
Qed.

End RuleEngine.

(** C2: the rules are scanned in list order; the first rule whose
    lower-cased pattern matches the lower-cased description (equality in
    exact mode, starts-with in prefix mode) decides the result, which is
    the transaction with that rule's effects: whatever rules follow it,
    none of them is used and the keyword fallback is skipped, also when the
    rule has no target category. *)
Theorem C2_first_matching_rule_wins :
  forall (tx : Transaction) (pre : list AutoRule) (rule : AutoRule)
         (post : list AutoRule),
    existsb (rule_match (desc_of tx)) pre = false ->
    rule_match (desc_of tx) rule = true ->
    match rule_type rule with
    | exact => desc_of tx = toLowerCase (pattern rule)
    | starts_with =>
        exists rest, desc_of tx = (toLowerCase (pattern rule) ++ rest)%string
    end /\
    applyRulesToTransaction tx (pre ++ rule :: post) = rule_result tx rule /\
    category (applyRulesToTransaction tx (pre ++ rule :: post)) =
      match targetCategory rule with
      | Some c => c
      | None => category tx
      end /\
    ignored (applyRulesToTransaction tx (pre ++ rule :: post)) =
      match shouldIgnore rule with
      | Some b => Some b
      | None => ignored tx
      end.
Proof.
  intros tx pre rule post Hpre Hrule.
  assert (Happ : applyRulesToTransaction tx (pre ++ rule :: post)
                 = rule_result tx rule).
  { unfold applyRulesToTransaction. fold (desc_of tx).
    rewrite scan_rules_find, (find_first _ pre rule post Hpre Hrule).
    reflexivity. }
  split; [now apply rule_match_spec|]. split; [exact Happ|].
  rewrite Happ. split; reflexivity.
Qed.

(** Two rules on the description "Netflix": the exact one (Shopping) is
    registered before the prefix one (Entertainment), and it has the last
    word; a first rule without a target category keeps "uber" from the
    keyword map. *)
Lemma C2_first_matching_rule_wins_witness :
  category (applyRulesToTransaction
              (sample_tx "Netflix" Category.Other)
              ([sample_rule "spotify" exact (Some Category.Health) None]
               ++ sample_rule "NETFLIX" exact (Some Category.Shopping) None
               :: [sample_rule "net" starts_with
                               (Some Category.Entertainment) (Some true)]))
  = Category.Shopping
  /\ category (applyRulesToTransaction
                 (sample_tx "Uber trip" Category.Other)
                 ([] ++ sample_rule "uber" starts_with None (Some true)
                  :: [sample_rule "uber" starts_with
                                  (Some Category.Transport) None]))
     = Category.Other.
Proof.
  split.
  - exact (proj1 (proj2 (proj2
      (C2_first_matching_rule_wins
         (sample_tx "Netflix" Category.Other)
         [sample_rule "spotify" exact (Some Category.Health) None]
         (sample_rule "NETFLIX" exact (Some Category.Shopping) None)
         [sample_rule "net" starts_with
                      (Some Category.Entertainment) (Some true)]
         eq_refl eq_refl)))).
  - exact (proj1 (proj2 (proj2
      (C2_first_matching_rule_wins
         (sample_tx "Uber trip" Category.Other)
         []
         (sample_rule "uber" starts_with None (Some true))
         [sample_rule "uber" starts_with (Some Category.Transport) None]
         eq_refl eq_refl)))).
Defined.

(** C3: when no user rule matches, the keyword map is consulted only for a
    transaction whose category is Other: any other category leaves the
    transaction as it is, whatever its description contains; for Other,
    the first entry of the map whose keyword occurs in the lower-cased
    description sets the category (the category of the result is the
    category of that entry, and every other field is that of the
    argument), and without such an entry the transaction is unchanged;
    [ignored] is never touched. *)
Theorem C3_keyword_fallback :
  forall (tx : Transaction) (rules : list AutoRule),
    existsb (rule_match (desc_of tx)) rules = false ->
    (category tx <> Category.Other ->
       applyRulesToTransaction tx rules = tx) /\
    (category tx = Category.Other ->
       forall pre key c post,
         DEFAULT_CATEGORY_MAP = pre ++ (key, c) :: post ->
         existsb (fun e => includes (desc_of tx) (fst e)) pre = false ->
         includes (desc_of tx) key = true ->
         applyRulesToTransaction tx rules = with_category tx c /\
         category (applyRulesToTransaction tx rules) = c /\
         applyRulesToTransaction tx rules
         = {| id := id tx; date := date tx;
              description := description tx; amount := amount tx;
              category := c;
              source := source tx; type := type tx;
              ignored := ignored tx |}) /\
    (category tx = Category.Other ->
       existsb (fun e => includes (desc_of tx) (fst e)) DEFAULT_CATEGORY_MAP
         = false ->
       applyRulesToTransaction tx rules = tx) /\
    ignored (applyRulesToTransaction tx rules) = ignored tx /\
    (forall key, includes (desc_of tx) key = true <->
                 exists a b, desc_of tx = (a ++ key ++ b)%string).
Proof.
  intros tx rules Hno.
  unfold applyRulesToTransaction. fold (desc_of tx).
  rewrite (scan_rules_none tx _ rules Hno), scan_map_find.
  split; [|split; [|split; [|split; [|intros key; apply includes_spec]]]].
  - intros Hcat. destruct (category tx); try reflexivity. now elim Hcat.
  - intros Hcat pre key c post Hmap Hpre Hkey. rewrite Hcat; simpl Category.eqb.
    cbv iota. rewrite Hmap.
    rewrite (find_first (fun e => includes (desc_of tx) (fst e))
                        pre (key, c) post Hpre Hkey).
    split; [reflexivity|]. split; reflexivity.
  - intros Hcat Hnone. rewrite Hcat; simpl Category.eqb. cbv iota.
    now rewrite (find_none_existsb _ _ Hnone).
  - destruct (Category.eqb (category tx) Category.Other); [|reflexivity].
    destruct (find _ DEFAULT_CATEGORY_MAP); reflexivity.
Qed.

(** A transaction already in Shopping keeps it although "uber" occurs in
    its description, and one in Other whose description contains
    "pingo doce" becomes Food; the one user rule matches neither. *)
Lemma C3_keyword_fallback_witness :
  applyRulesToTransaction
    (sample_tx "Uber Eats" Category.Shopping)
    [sample_rule "bolt" starts_with (Some Category.Health) (Some true)]
  = sample_tx "Uber Eats" Category.Shopping
  /\ applyRulesToTransaction
       (sample_tx "Compra Pingo Doce Lisboa" Category.Other)
       [sample_rule "bolt" starts_with (Some Category.Health) (Some true)]
     = sample_tx "Compra Pingo Doce Lisboa" Category.Food.
Proof.
  split.
  - apply (proj1 (C3_keyword_fallback
                    (sample_tx "Uber Eats" Category.Shopping)
                    [sample_rule "bolt" starts_with (Some Category.Health)
                                 (Some true)]
                    eq_refl)).
    discriminate.
  - exact (proj2 (proj2
             (proj1 (proj2 (C3_keyword_fallback
                    (sample_tx "Compra Pingo Doce Lisboa" Category.Other)
                    [sample_rule "bolt" starts_with (Some Category.Health)
                                 (Some true)]
                    eq_refl))
                eq_refl
                (firstn 3 DEFAULT_CATEGORY_MAP) "pingo doce" Category.Food
                (skipn 4 DEFAULT_CATEGORY_MAP)
                eq_refl eq_refl eq_refl))).
Defined.

(** Every category the default map assigns differs from Other. *)
Lemma DEFAULT_CATEGORY_MAP_not_Other :
  forall e, In e DEFAULT_CATEGORY_MAP -> snd e <> Category.Other.
Proof.
  intros e He. simpl in He.
  repeat (destruct He as [<-|He]; [discriminate|]). contradiction.
Qed.

Lemma applyRules_description (tx : Transaction) (rules : list AutoRule) :
  description (applyRulesToTransaction tx rules) = description tx.
Proof.
  unfold applyRulesToTransaction.
  rewrite scan_rules_find, scan_map_find.
  destruct (find _ rules); [reflexivity|].
  destruct (Category.eqb _ _); [|reflexivity].
  destruct (find _ DEFAULT_CATEGORY_MAP); reflexivity.
Qed.

Lemma Category_eqb_eq (a b : Category) : Category.eqb a b = true <-> a = b.
Proof.
  split; [|intros ->; destruct b; reflexivity].
  destruct a, b; simpl; intros H; (reflexivity || discriminate).
Qed.

(** C6: classifying a second time with the same rules changes nothing. *)
Theorem C6_applyRules_idempotent :
  forall (tx : Transaction) (rules : list AutoRule),
    applyRulesToTransaction (applyRulesToTransaction tx rules) rules
    = applyRulesToTransaction tx rules.
Proof.
  intros tx rules.
  unfold applyRulesToTransaction at 1.
  rewrite applyRules_description.
  unfold applyRulesToTransaction.
  rewrite !scan_rules_find.
  destruct (find (rule_match (toLowerCase (description tx))) rules)
    as [rule|] eqn:Hrule.
  - now rewrite rule_result_twice.
  - destruct (Category.eqb (category tx) Category.Other) eqn:Hcat.
    + rewrite !scan_map_find.
      destruct (find _ DEFAULT_CATEGORY_MAP) as [e|] eqn:Hkey.
      * apply find_some in Hkey as [Hin _].
        apply DEFAULT_CATEGORY_MAP_not_Other in Hin.
        simpl category.
        destruct (Category.eqb (snd e) Category.Other) eqn:He;
          [|reflexivity].
        apply Category_eqb_eq in He. contradiction.
      * now rewrite Hcat.
    + now rewrite Hcat.
Qed.

(** C7: a prefix rule with the empty pattern matches every description;
    first in the list, it decides the result for every transaction: the
    category of the result is the rule's target category when it has one
    and the category of the argument otherwise, [ignored] is the rule's
    [shouldIgnore] when it has one and that of the argument otherwise,
    every other field is that of the argument; neither the rules after it
    nor the keyword map are used. *)
Theorem C7_empty_prefix_rule_matches_all :
  forall (tx : Transaction) (rule : AutoRule) (rest : list AutoRule),
    pattern rule = "" ->
    rule_type rule = starts_with ->
    rule_match (desc_of tx) rule = true /\
    applyRulesToTransaction tx (rule :: rest) = rule_result tx rule /\
    category (applyRulesToTransaction tx (rule :: rest)) =
      match targetCategory rule with
      | Some c => c
      | None => category tx
      end /\
    ignored (applyRulesToTransaction tx (rule :: rest)) =
      match shouldIgnore rule with
      | Some b => Some b
      | None => ignored tx
      end /\
    applyRulesToTransaction tx (rule :: rest)
    = {| id := id tx; date := date tx;
         description := description tx; amount := amount tx;
         category := match targetCategory rule with
                     | Some c => c
                     | None => category tx
                     end;
         source := source tx; type := type tx;
         ignored := match shouldIgnore rule with
                    | Some b => Some b
                    | None => ignored tx
                    end |}.
Proof.
  intros tx rule rest Hp Ht.
  assert (Hm : rule_match (desc_of tx) rule = true).
  { unfold rule_match. rewrite Hp, Ht. simpl. now destruct (desc_of tx). }
  split; [exact Hm|].
  unfold applyRulesToTransaction. fold (desc_of tx). simpl scan_rules.
  rewrite Hm. repeat split.
Qed.

(** The empty prefix rule hides a "netflix" transaction and leaves its
    category alone, although a later rule and the keyword map both know
    the description. *)
Lemma C7_empty_prefix_rule_matches_all_witness :
  applyRulesToTransaction
    (sample_tx "Netflix" Category.Other)
    [sample_rule "" starts_with None (Some true);
     sample_rule "netflix" exact (Some Category.Shopping) None]
  = {| id := "manual-1";
       date := DateOfString "2024-01-05";
       description := "Netflix";
       amount := JsNumber.of_Z 10;
       category := Category.Other;
       source := Manual;
       type := Expense;
       ignored := Some true |}.
Proof.
  exact (proj2 (proj2 (proj2 (proj2
           (C7_empty_prefix_rule_matches_all
              (sample_tx "Netflix" Category.Other)
              (sample_rule "" starts_with None (Some true))
              [sample_rule "netflix" exact (Some Category.Shopping) None]
              eq_refl eq_refl))))).
Defined.

(** C9: the engine changes at most [category] and [ignored]; [id],
    [date], [description], [amount], [source] and [type] of the result are
    those of the argument. *)
Theorem C9_applyRules_frame :
  forall (tx : Transaction) (rules : list AutoRule),
    let tx' := applyRulesToTransaction tx rules in
    id tx' = id tx /\ date tx' = date tx /\
    description tx' = description tx /\ amount tx' = amount tx /\
    source tx' = source tx /\ type tx' = type tx.
Proof.
  intros tx rules. cbv zeta.
  unfold applyRulesToTransaction.
  rewrite scan_rules_find, scan_map_find.
  destruct (find _ rules); [repeat split|].
  destruct (Category.eqb _ _); [|repeat split].
  destruct (find _ DEFAULT_CATEGORY_MAP); repeat split.
Qed.

(* ================================================================== *)
(** * The parsers *)

Section Lines.

Lemma split_no_sep (sep : ascii) (l0 : string) :
  no_char sep l0 = true -> split sep l0 = [l0].
Proof.
  induction l0 as [|a l0 IH]; simpl; [reflexivity|].
  intros H. apply andb_true_iff in H as [Ha H0].
  apply negb_true_iff in Ha. rewrite Ha, (IH H0). reflexivity.
Qed.

Lemma split_first_line (sep : ascii) (l0 rest : string) :
  no_char sep l0 = true ->
  split sep (l0 ++ String sep rest) = l0 :: split sep rest.
Proof.
  induction l0 as [|a l0 IH]; simpl.
  - intros _. now rewrite Ascii.eqb_refl.
  - intros H. apply andb_true_iff in H as [Ha H0].
    apply negb_true_iff in Ha. rewrite Ha, (IH H0). reflexivity.
Qed.

Lemma flat_map_seq_shift {A : Type} (f : nat -> list A) (n start : nat) :
  flat_map f (seq (S start) n) = flat_map (fun k => f (S k)) (seq start n).
Proof.
  revert start. induction n as [|n IH]; intros start; simpl;
    [reflexivity|].
  now rewrite IH.
Qed.

(** The loop starts at index 1: line 0 has no part in its result. *)
Lemma rows_from_1_cons (body : nat -> string -> option Transaction)
      (l0 : string) (ls : list string) :
  rows_from_1 body (l0 :: ls) = rows_of_rest body ls.
Proof.
  unfold rows_from_1, rows_of_rest. simpl List.length.
  replace (S (List.length ls) - 1)%nat with (List.length ls) by lia.
  rewrite flat_map_seq_shift. reflexivity.
Qed.

Lemma rows_from_1_In (body : nat -> string -> option Transaction)
      (lines : list string) (tx : Transaction) :
  In tx (rows_from_1 body lines) <->
  exists i, (1 <= i < List.length lines)%nat /\
            body i (nth i lines "") = Some tx.
Proof.
  unfold rows_from_1. rewrite in_flat_map. split.
  - intros (i & Hi & Htx). exists i. apply in_seq in Hi. split; [lia|].
    destruct (body i (nth i lines "")); simpl in Htx;
      [destruct Htx as [<-|[]]; reflexivity | contradiction].
  - intros (i & Hi & Htx). exists i. split; [apply in_seq; lia|].
    rewrite Htx. now left.
Qed.

End Lines.

(** C10: line 0 of the text is never turned into a transaction by either
    parser: a text of one line gives no transaction, and for a longer text
    the result is made from the lines after the first alone, whatever the
    first line is. *)
Theorem C10_first_line_skipped :
  forall (now : nat -> Z) (l0 rest : string),
    no_char "010" l0 = true ->
    parseRevolutCSV now l0 = [] /\
    parseMillenniumCSV now l0 = [] /\
    parseRevolutCSV now (l0 ++ LF ++ rest) =
      rows_of_rest (fun i line => revolut_row (now i) i line)
                   (split "010" rest) /\
    parseMillenniumCSV now (l0 ++ LF ++ rest) =
      rows_of_rest (fun i line => millennium_row (now i) i line)
                   (split "010" rest).
Proof.
  intros now l0 rest H0.
  unfold parseRevolutCSV, parseMillenniumCSV, LF.
  rewrite (split_no_sep _ _ H0).
  change (String "010" "" ++ rest)%string with (String "010" rest).
  rewrite (split_first_line _ _ rest H0), !rows_from_1_cons.
  repeat split; reflexivity.
Qed.

(** A well-formed data row gives a transaction as line 1 and none as
    line 0. *)
Lemma C10_first_line_skipped_witness :
  parseMillenniumCSV (fun _ => 0%Z) pingo_doce_row = [] /\
  List.length (parseMillenniumCSV (fun _ => 0%Z)
                 (pingo_doce_row ++ LF ++ pingo_doce_row)) = 1%nat /\
  map id (parseMillenniumCSV (fun _ => 0%Z)
            (pingo_doce_row ++ LF ++ pingo_doce_row)) = ["mil-1-0"].
Proof.
  pose proof (C10_first_line_skipped (fun _ => 0%Z) pingo_doce_row
                pingo_doce_row eq_refl) as (_ & H1 & _ & H2).
  split; [exact H1|]. rewrite H2. split; reflexivity.
Defined.

(* ================================================================== *)
(** ** Numbers: when a sum is NaN *)

Section Rounding.

Local Open Scope Z_scope.

Lemma shr_1_nonneg (mrs : shr_record) :
  0 <= shr_m mrs -> 0 <= shr_m (shr_1 mrs).
Proof.
  destruct mrs as [m r s]; simpl.
  destruct m as [|p|p]; [| destruct p | destruct p]; simpl; lia.
Qed.

Lemma iter_shr_1_nonneg (p : positive) :
  forall mrs, 0 <= shr_m mrs -> 0 <= shr_m (iter_pos shr_1 p mrs).
Proof.
  induction p as [p IH|p IH|]; simpl; intros mrs H.
  - apply IH, IH, shr_1_nonneg, H.
  - apply IH, IH, H.
  - apply shr_1_nonneg, H.
Qed.

Lemma shr_fexp_nonneg (m e : Z) (l : location) :
  0 <= m -> 0 <= shr_m (fst (shr_fexp prec emax m e l)).
Proof.
  intros Hm. unfold shr_fexp, shr.
  assert (H0 : 0 <= shr_m (shr_record_of_loc m l))
    by (destruct l as [|[]]; exact Hm).
  destruct (fexp prec emax (Zdigits2 m + e) - e); simpl; auto.
  now apply iter_shr_1_nonneg.
Qed.

Lemma round_nearest_even_nonneg (m : Z) (l : location) :
  0 <= m -> 0 <= round_nearest_even m l.
Proof.
  intros Hm. destruct l as [|[]]; simpl; try lia.
  destruct (Z.even m); lia.
Qed.

(** Rounding a non-negative mantissa gives a zero, a finite number or an
    infinity. *)
Lemma binary_round_aux_not_NaN (sx : bool) (mx ex : Z) (lx : location) :
  0 <= mx -> isNaN (binary_round_aux prec emax sx mx ex lx) = false.
Proof.
  intros Hm. unfold binary_round_aux.
  pose proof (shr_fexp_nonneg mx ex lx Hm) as H1.
  destruct (shr_fexp prec emax mx ex lx) as [mrs' e']. simpl in H1.
  pose proof (shr_fexp_nonneg _ e' loc_Exact
                (round_nearest_even_nonneg _ (loc_of_shr_record mrs') H1))
    as H2.
  destruct (shr_fexp prec emax _ e' loc_Exact) as [mrs'' e'']. simpl in H2.
  destruct (shr_m mrs'') as [|m|m]; [reflexivity| |lia].
  destruct (e'' <=? emax - prec); reflexivity.
Qed.

Lemma binary_normalize_not_NaN (m e : Z) (szero : bool) :
  isNaN (binary_normalize prec emax m e szero) = false.
Proof.
  destruct m as [|p|p]; simpl; [reflexivity| |];
    unfold binary_round;
    destruct (shl_align _ _ _) as [mz ez];
    apply binary_round_aux_not_NaN; lia.
Qed.

(** [x + y] is NaN exactly when [x] is NaN, [y] is NaN, or they are
    infinities of opposite sign. *)
Lemma add_isNaN (x y : number) :
  isNaN (add x y) = isNaN x || isNaN y || opposite_infinities x y.
Proof.
  destruct x as [sx|sx| |sx mx ex], y as [sy|sy| |sy my ey];
    try reflexivity;
    try (destruct sx, sy; reflexivity).
  unfold add, SFadd. rewrite binary_normalize_not_NaN. reflexivity.
Qed.

End Rounding.

(* ================================================================== *)
(** ** Format B: which rows are skipped *)

Lemma parseMillenniumCSV_In (now : nat -> Z) (text : string)
      (tx : Transaction) :
  In tx (parseMillenniumCSV now text) <->
  exists i, (1 <= i < List.length (split "010" text))%nat /\
            millennium_row (now i) i (nth i (split "010" text) "")
            = Some tx.
Proof. unfold parseMillenniumCSV. apply rows_from_1_In. Qed.

Lemma truthy_false (s : string) : truthy s = false <-> s = "".
Proof. destruct s; simpl; split; intros H; (reflexivity || discriminate). Qed.

(** C4, as the code has it: a row of Format B gives no transaction exactly
    when it has fewer than 5 columns, or its date field (column 0) is
    empty, or the sum of debit (column 3) and credit (column 4) is NaN,
    that is when at least one of the two fails to parse as a number (or
    they are infinities of opposite sign); an empty field counts as 0.
    A transaction is in the result of [parseMillenniumCSV] exactly when
    some line after the first gives it. *)
Theorem C4_millennium_row_skipped_iff :
  forall (now : Z) (i : nat) (line : string),
    let cols := split ";" line in
    let debit := parseFloat (decimal_field cols 3) in
    let credit := parseFloat (decimal_field cols 4) in
    (millennium_row now i line = None <->
       (List.length cols < 5)%nat \/ col cols 0 = "" \/
       isNaN debit = true \/ isNaN credit = true \/
       opposite_infinities debit credit = true) /\
    (forall k, nth_error cols k = Some "" \/ nth_error cols k = None ->
               parseFloat (decimal_field cols k) = zero) /\
    (forall (clock : nat -> Z) (text : string) (tx : Transaction),
        In tx (parseMillenniumCSV clock text) <->
        exists j, (1 <= j < List.length (split "010" text))%nat /\
                  millennium_row (clock j) j (nth j (split "010" text) "")
                  = Some tx).
Proof.
  intros now i line cols debit credit.
  split; [|split].
  - unfold millennium_row. fold cols. fold debit. fold credit.
    destruct (List.length cols <? 5)%nat eqn:Hlen.
    + apply Nat.ltb_lt in Hlen. split; [intros _; now left | reflexivity].
    + apply Nat.ltb_ge in Hlen.
      rewrite add_isNaN.
      destruct (truthy (col cols 0)) eqn:Hdate; simpl negb; simpl orb.
      * destruct (isNaN debit) eqn:Hd; simpl orb.
        { split; [intros _; auto 6 | reflexivity]. }
        destruct (isNaN credit) eqn:Hc; simpl orb.
        { split; [intros _; auto 6 | reflexivity]. }
        destruct (opposite_infinities debit credit) eqn:Ho.
        { split; [intros _; auto 6 | reflexivity]. }
        split; [discriminate|].
        intros [H|[H|[H|[H|H]]]]; try discriminate; try lia.
        rewrite H in Hdate. discriminate.
      * apply truthy_false in Hdate.
        split; [intros _; auto | reflexivity].
  - intros k [Hk|Hk]; unfold decimal_field; rewrite Hk; reflexivity.
  - intros clock text tx. apply parseMillenniumCSV_In.
Qed.

(** C4 as the specification words it ("both fail to parse") does not hold:
    a row whose date is present and whose credit parses (5.00) while its
    debit does not is skipped. *)
Lemma C4_counterexample :
  let cols := split ";" bad_debit_row in
  (5 <= List.length cols)%nat /\
  col cols 0 <> "" /\
  isNaN (parseFloat (decimal_field cols 3)) = true /\
  is_ratio (parseFloat (decimal_field cols 4)) 5 1 = true /\
  parseMillenniumCSV (fun _ => 0%Z)
                     (millennium_header ++ LF ++ bad_debit_row) = [].
Proof.
  cbv zeta.
  split; [vm_compute; lia|].
  split; [discriminate|].
  split; [reflexivity|].
  split; reflexivity.
Qed.

(* ================================================================== *)
(** ** Format A: the date of a row *)

Lemma parseRevolutCSV_In (now : nat -> Z) (text : string)
      (tx : Transaction) :
  In tx (parseRevolutCSV now text) <->
  exists i, (1 <= i < List.length (split "010" text))%nat /\
            revolut_row (now i) i (nth i (split "010" text) "") = Some tx.
Proof. unfold parseRevolutCSV. apply rows_from_1_In. Qed.

Lemma revolut_row_Some (now : Z) (i : nat) (line : string)
      (tx : Transaction) :
  revolut_row now i line = Some tx ->
  let cols := split "," line in
  (6 <= List.length cols)%nat /\
  isNaN (parseFloat (col cols 5)) = false /\
  date tx = DateOfString (or_else (col cols 3) (col cols 2)) /\
  amount tx = abs (parseFloat (col cols 5)).
Proof.
  intros H cols. unfold revolut_row in H. fold cols in H.
  destruct (List.length cols <? 6)%nat eqn:Hlen; [discriminate|].
  apply Nat.ltb_ge in Hlen.
  destruct (isNaN (parseFloat (col cols 5))) eqn:Hnan; [discriminate|].
  injection H as <-. auto.
Qed.

(** C5, as the code has it: the transaction of an accepted row of Format A
    is in the result, and its date is built from column 3 or, when
    column 3 is empty, from column 2 (not from column 4, which is the
    description). *)
Theorem C5_revolut_date_column :
  forall (now : nat -> Z) (text : string) (i : nat) (tx : Transaction),
    let lines := split "010" text in
    let cols := split "," (nth i lines "") in
    (1 <= i < List.length lines)%nat ->
    revolut_row (now i) i (nth i lines "") = Some tx ->
    In tx (parseRevolutCSV now text) /\
    (col cols 3 <> "" -> date tx = DateOfString (col cols 3)) /\
    (col cols 3 = "" -> date tx = DateOfString (col cols 2)).
Proof.
  intros now text i tx lines cols Hi Hrow.
  split.
  - apply parseRevolutCSV_In. exists i. split; assumption.
  - apply revolut_row_Some in Hrow as (_ & _ & Hdate & _).
    fold lines in Hdate. fold cols in Hdate. rewrite Hdate.
    unfold or_else.
    destruct (col cols 3); simpl; split; intros H;
      solve [reflexivity | discriminate | now elim H].
Qed.

Lemma C5_revolut_date_column_witness :
  In (pending_tx 0) (parseRevolutCSV (fun _ => 0%Z)
                       (revolut_header ++ LF ++ pending_row)) /\
  date (pending_tx 0) = DateOfString "2024-01-04".
Proof.
  pose proof (C5_revolut_date_column
                (fun _ => 0%Z) (revolut_header ++ LF ++ pending_row)
                1 (pending_tx 0) (conj (le_n 1) (le_n 2)) eq_refl)
    as (Hin & _ & Hdate).
  split; [exact Hin | exact (Hdate eq_refl)].
Defined.

(** C5 as the specification words it (fallback to column 4) does not
    hold: on a row whose column 3 is empty the date
    is built from column 2, and column 4 holds the description. *)
Lemma C5_counterexample :
  let cols := split "," pending_row in
  col cols 3 = "" /\
  exists tx,
    parseRevolutCSV (fun _ => 0%Z) (revolut_header ++ LF ++ pending_row)
    = [tx] /\
    date tx = DateOfString (col cols 2) /\
    date tx <> DateOfString (col cols 4).
Proof.
  cbv zeta. split; [reflexivity|].
  exists (pending_tx 0).
  split; [reflexivity|]. split; [reflexivity|]. discriminate.
Qed.

(* ================================================================== *)
(** ** The sign of the amount *)

Lemma abs_nonneg (x : number) : isNaN x = false -> geb (abs x) zero = true.
Proof. destruct x; simpl; intros H; (reflexivity || discriminate). Qed.

(** Format A stores the magnitude: no amount is negative or NaN. *)
Lemma parseRevolutCSV_amount_nonneg (now : nat -> Z) (text : string)
      (tx : Transaction) :
  In tx (parseRevolutCSV now text) -> geb (amount tx) zero = true.
Proof.
  intros H. apply parseRevolutCSV_In in H as (i & _ & Hrow).
  apply revolut_row_Some in Hrow as (_ & Hnan & _ & Hamount).
  rewrite Hamount. now apply abs_nonneg.
Qed.

(** The spreadsheet rows too: the magnitude is stored and NaN is filtered
    out. *)
Lemma parseGenericXLSX_amount_nonneg (num_str : number -> string)
      (now : nat -> Z) (json : list row) (tx : Transaction) :
  In tx (parseGenericXLSX num_str now json) -> geb (amount tx) zero = true.
Proof.
  unfold parseGenericXLSX. intros H.
  apply filter_In in H as [Hin Hkeep].
  apply andb_true_iff in Hkeep as [Hnan _]. apply negb_true_iff in Hnan.
  apply in_map_iff in Hin as ([i r] & <- & _).
  simpl in *. destruct (parseFloat _); simpl in *;
    (reflexivity || discriminate).
Qed.

(** C1 at a row of Format B with a negative credit and no debit: the
    amount of the transaction is the credit as it stands, -12.5, where
    Format A and the spreadsheet rows (above) store the magnitude. *)
Theorem C1_millennium_negative_amount :
  forall now : nat -> Z,
    parseMillenniumCSV now (millennium_header ++ LF ++ negative_credit_row)
    = [negative_credit_tx (now 1%nat)] /\
    is_ratio (amount (negative_credit_tx (now 1%nat))) (-25) 2 = true /\
    ltb (amount (negative_credit_tx (now 1%nat))) zero = true /\
    geb (amount (negative_credit_tx (now 1%nat))) zero = false /\
    type (negative_credit_tx (now 1%nat)) = Income.
Proof.
  intros now. repeat split.
Qed.

(* ================================================================== *)
(** ** The Format B scenario *)

(** C8: for the data row [05-01-2024;;Pingo Doce;12,50;] after the header,
    [parseMillenniumCSV] gives one transaction: date 5 January 2024,
    description "Pingo Doce", amount 12.5, type Expense, category Other;
    with no rules, the engine then gives the same transaction with
    category Food, from the keyword "pingo doce", the first of the map
    that occurs in the lower-cased description. *)
Theorem C8_pingo_doce_scenario :
  forall now : nat -> Z,
    let tx := pingo_doce_tx (now 1%nat) in
    parseMillenniumCSV now (millennium_header ++ LF ++ pingo_doce_row)
    = [tx] /\
    calendar (date tx) = Some (2024, 0, 5)%Z /\
    description tx = "Pingo Doce" /\
    is_ratio (amount tx) 25 2 = true /\
    type tx = Expense /\
    category tx = Category.Other /\
    applyRulesToTransaction tx [] = with_category tx Category.Food /\
    category (applyRulesToTransaction tx []) = Category.Food /\
    applyRulesToTransaction tx []
    = {| id := ("mil-1-" ++ JsString.of_Z (now 1%nat))%string;
         date := DateOfParts (JsNumber.of_Z 2024) zero (JsNumber.of_Z 5);
         description := "Pingo Doce";
         amount := S754_finite false 7036874417766400 (-49);
         category := Category.Food;
         source := Millennium;
         type := Expense;
         ignored := None |} /\
    find (fun e => includes (desc_of tx) (fst e)) DEFAULT_CATEGORY_MAP
    = Some ("pingo doce", Category.Food).
Proof.
  intros now. cbv zeta. repeat split.
Qed.

(* ================================================================== *)
(** * More on the parsers *)

Section ParserRows.

Lemma millennium_row_Some (now : Z) (i : nat) (line : string)
      (tx : Transaction) :
  millennium_row now i line = Some tx ->
  let cols := split ";" line in
  let debit := parseFloat (decimal_field cols 3) in
  let credit := parseFloat (decimal_field cols 4) in
  (5 <= List.length cols)%nat /\
  col cols 0 <> "" /\
  isNaN (add debit credit) = false /\
  description tx = col cols 2 /\
  amount tx = (if gtb debit zero then debit else credit) /\
  type tx = (if gtb debit zero then Expense else Income) /\
  category tx = Category.Other /\ source tx = Millennium /\
  ignored tx = None.
Proof.
  intros H cols debit credit. unfold millennium_row in H.
  fold cols in H. fold debit in H. fold credit in H.
  destruct (List.length cols <? 5)%nat eqn:Hlen; [discriminate|].
  apply Nat.ltb_ge in Hlen.
  destruct (truthy (col cols 0)) eqn:Hdate; simpl in H; [|discriminate].
  destruct (isNaN (add debit credit)) eqn:Hnan; [discriminate|].
  injection H as <-. simpl.
  repeat split; auto.
  intros E. rewrite E in Hdate. discriminate.
Qed.

Lemma revolut_row_fields (now : Z) (i : nat) (line : string)
      (tx : Transaction) :
  revolut_row now i line = Some tx ->
  let cols := split "," line in
  description tx = removeAll "034" (col cols 4) /\
  type tx = (if ltb (parseFloat (col cols 5)) zero then Expense
             else Income) /\
  category tx = Category.Other /\ source tx = Revolut /\
  ignored tx = None.
Proof.
  intros H cols. unfold revolut_row in H. fold cols in H.
  destruct (List.length cols <? 6)%nat; [discriminate|].
  destruct (isNaN (parseFloat (col cols 5))); [discriminate|].
  injection H as <-. simpl. repeat split.
Qed.

Lemma In_combine_seq {A : Type} (l : list A) (start i : nat) (x : A) :
  In (i, x) (combine (seq start (List.length l)) l) ->
  (start <= i)%nat /\ nth_error l (i - start) = Some x.
Proof.
  revert start. induction l as [|a l IH]; intros start H; simpl in H;
    [contradiction|].
  destruct H as [H|H].
  - injection H as <- <-. rewrite Nat.sub_diag. split; [lia | reflexivity].
  - apply IH in H as [Hle Hn]. split; [lia|].
    replace (i - start)%nat with (S (i - S start)) by lia. exact Hn.
Qed.

Lemma parseGenericXLSX_In (num_str : number -> string) (now : nat -> Z)
      (json : list row) (tx : Transaction) :
  In tx (parseGenericXLSX num_str now json) ->
  exists i r, nth_error json i = Some r /\
              tx = xlsx_row num_str (now i) i r /\
              isNaN (amount tx) = false /\ description tx <> "".
Proof.
  unfold parseGenericXLSX. intros H.
  apply filter_In in H as [Hin Hkeep].
  apply andb_true_iff in Hkeep as [Hnan Hdesc].
  apply negb_true_iff in Hnan.
  apply in_map_iff in Hin as ([i r] & <- & Hin). simpl in *.
  exists i, r.
  apply In_combine_seq in Hin as [_ Hn]. rewrite Nat.sub_0_r in Hn.
  split; [exact Hn|]. split; [reflexivity|]. split; [exact Hnan|].
  intros E. rewrite E in Hdesc. discriminate.
Qed.

End ParserRows.

Section Signs.

Lemma abs_pos_of_neg (x : number) :
  ltb x zero = true -> gtb (abs x) zero = true.
Proof. destruct x as [[]|[]| |[] m e]; simpl; intros H;
         (reflexivity || discriminate). Qed.

Lemma gtb_zero_not_ltb (x : number) :
  gtb x zero = true -> ltb x zero = false /\ isNaN x = false.
Proof. destruct x as [[]|[]| |[] m e]; simpl; intros H;
         (split; reflexivity) || discriminate. Qed.

Lemma add_not_NaN (x y : number) :
  isNaN (add x y) = false -> isNaN x = false /\ isNaN y = false.
Proof.
  rewrite add_isNaN. intros H.
  apply orb_false_iff in H as [H _]. now apply orb_false_iff in H.
Qed.

End Signs.

(** X1: every transaction [parseRevolutCSV] returns has a number for an
    amount, never NaN and never negative; an Expense has a strictly
    positive amount, so a row whose amount is 0 or -0 is an Income. *)
Theorem revolut_amount_and_type :
  forall (now : nat -> Z) (text : string) (tx : Transaction),
    In tx (parseRevolutCSV now text) ->
    isNaN (amount tx) = false /\
    geb (amount tx) zero = true /\
    (type tx = Expense -> gtb (amount tx) zero = true) /\
    (gtb (amount tx) zero = false -> type tx = Income).
Proof.
  intros now text tx H.
  apply parseRevolutCSV_In in H as (i & _ & Hrow).
  pose proof (revolut_row_Some _ _ _ _ Hrow) as (_ & Hnan & _ & Hamount).
  pose proof (revolut_row_fields _ _ _ _ Hrow) as (_ & Htype & _).
  rewrite Hamount, Htype.
  set (x := parseFloat _) in *.
  assert (Hexp : (if ltb x zero then Expense else Income) = Expense ->
                 gtb (abs x) zero = true).
  { destruct (ltb x zero) eqn:Hlt; [intros _ | discriminate].
    now apply abs_pos_of_neg. }
  split; [destruct x; (reflexivity || discriminate)|].
  split; [now apply abs_nonneg|].
  split; [exact Hexp|].
  intros Hz. destruct (ltb x zero) eqn:Hlt; [|reflexivity].
  rewrite Hexp in Hz by reflexivity. discriminate.
Qed.

Lemma revolut_amount_and_type_witness :
  isNaN (amount (pending_tx 0)) = false /\
  geb (amount (pending_tx 0)) zero = true.
Proof.
  pose proof (revolut_amount_and_type
                (fun _ => 0%Z) (revolut_header ++ LF ++ pending_row)
                (pending_tx 0) (or_introl eq_refl)) as (H1 & H2 & _).
  split; assumption.
Defined.

(** X2: in the result of [parseMillenniumCSV] no amount is NaN, an
    Expense is a row whose debit is strictly positive and carries that
    debit, and an Income carries the credit as it stands: a negative
    amount can only be an Income. *)
Theorem millennium_amount_and_type :
  forall (now : nat -> Z) (text : string) (tx : Transaction),
    In tx (parseMillenniumCSV now text) ->
    isNaN (amount tx) = false /\
    (type tx = Expense -> gtb (amount tx) zero = true) /\
    (ltb (amount tx) zero = true -> type tx = Income) /\
    exists i, (1 <= i < List.length (split "010" text))%nat /\
      let cols := split ";" (nth i (split "010" text) "") in
      let debit := parseFloat (decimal_field cols 3) in
      let credit := parseFloat (decimal_field cols 4) in
      (type tx = Expense <-> gtb debit zero = true) /\
      (type tx = Expense -> amount tx = debit) /\
      (type tx = Income -> amount tx = credit).
Proof.
  intros now text tx H.
  apply parseMillenniumCSV_In in H as (i & Hi & Hrow).
  pose proof (millennium_row_Some _ _ _ _ Hrow)
    as (_ & _ & Hsum & _ & Hamount & Htype & _).
  apply add_not_NaN in Hsum as [Hd Hc].
  set (debit := parseFloat (decimal_field _ 3)) in *.
  set (credit := parseFloat (decimal_field _ 4)) in *.
  rewrite Hamount, Htype.
  destruct (gtb debit zero) eqn:Hgt.
  - apply gtb_zero_not_ltb in Hgt as Hlt. destruct Hlt as [Hlt _].
    split; [exact Hd|]. split; [auto|].
    split; [rewrite Hlt; discriminate|].
    exists i. split; [exact Hi|]. cbv zeta. fold debit. fold credit.
    rewrite Hgt. repeat split; auto; discriminate.
  - split; [exact Hc|]. split; [discriminate|]. split; [reflexivity|].
    exists i. split; [exact Hi|]. cbv zeta. fold debit. fold credit.
    rewrite Hgt. repeat split; auto; discriminate.
Qed.

Lemma millennium_amount_and_type_witness :
  isNaN (amount (negative_credit_tx 0)) = false /\
  type (negative_credit_tx 0) = Income.
Proof.
  pose proof (millennium_amount_and_type
                (fun _ => 0%Z)
                (millennium_header ++ LF ++ negative_credit_row)
                (negative_credit_tx 0) (or_introl eq_refl))
    as (H1 & _ & H3 & _).
  split; [exact H1 | exact (H3 eq_refl)].
Defined.

Section Delimiters.

Lemma split_nonempty (sep : ascii) (s : string) : split sep s <> [].
Proof.
  destruct s as [|c r]; simpl; [discriminate|].
  destruct (Ascii.eqb c sep); [discriminate|].
  destruct (split sep r); discriminate.
Qed.

(** The pieces of a split hold neither the separator nor any code unit
    the string lacked. *)
Lemma split_pieces (sep c : ascii) (s : string) :
  (c = sep \/ no_char c s = true) ->
  Forall (fun w => no_char c w = true) (split sep s).
Proof.
  induction s as [|a r IH]; intros H; simpl.
  - repeat constructor.
  - assert (Hr : c = sep \/ no_char c r = true).
    { destruct H as [H|H]; [now left|]. simpl in H.
      apply andb_true_iff in H. now right. }
    specialize (IH Hr).
    destruct (Ascii.eqb a sep) eqn:Ha.
    + constructor; [reflexivity | exact IH].
    + destruct (split sep r) as [|w ws]; [repeat constructor; simpl|].
      * destruct H as [->|H]; [now rewrite Ha|].
        simpl in H. apply andb_true_iff in H as [H _]. now rewrite H.
      * inversion IH as [|? ? Hw Hws]; subst.
        constructor; [|exact Hws]. simpl. rewrite Hw, andb_true_r.
        destruct H as [->|H]; [now rewrite Ha|].
        simpl in H. now apply andb_true_iff in H as [H _].
Qed.

Lemma Forall_nth_str (P : string -> Prop) (l : list string) (k : nat) :
  Forall P l -> (k < List.length l)%nat -> P (nth k l "").
Proof.
  intros H Hk. rewrite Forall_forall in H. apply H. now apply nth_In.
Qed.

Lemma removeAll_keeps_no_char (a c : ascii) (s : string) :
  no_char c s = true -> no_char c (removeAll a s) = true.
Proof.
  induction s as [|b r IH]; simpl; [reflexivity|].
  intros H. apply andb_true_iff in H as [Hb Hr].
  destruct (Ascii.eqb b a); simpl; [auto|]. now rewrite Hb, IH.
Qed.

Lemma removeAll_no_char (a : ascii) (s : string) :
  no_char a (removeAll a s) = true.
Proof.
  induction s as [|b r IH]; simpl; [reflexivity|].
  destruct (Ascii.eqb b a) eqn:Hb; simpl; [exact IH|].
  now rewrite Hb, IH.
Qed.

End Delimiters.

(** X3: a description that comes out of the delimited-text parsers never
    holds a line feed or the column separator of its format (a comma for
    [parseRevolutCSV], a semicolon for [parseMillenniumCSV]), and a Revolut
    description holds no double quote. *)
Theorem csv_description_has_no_delimiter :
  forall (now : nat -> Z) (text : string) (tx : Transaction),
    (In tx (parseRevolutCSV now text) ->
       no_char "010" (description tx) = true /\
       no_char "," (description tx) = true /\
       no_char "034" (description tx) = true) /\
    (In tx (parseMillenniumCSV now text) ->
       no_char "010" (description tx) = true /\
       no_char ";" (description tx) = true).
Proof.
  intros now text tx. split; intros H.
  - apply parseRevolutCSV_In in H as (i & Hi & Hrow).
    pose proof (revolut_row_Some _ _ _ _ Hrow) as (Hlen & _).
    pose proof (revolut_row_fields _ _ _ _ Hrow) as (Hdesc & _).
    cbv zeta in Hlen, Hdesc. rewrite Hdesc.
    set (line := nth i (split "010" text) "") in *.
    assert (Hline : no_char "010" line = true).
    { apply (Forall_nth_str (fun w => no_char "010" w = true));
        [apply split_pieces; now left | lia]. }
    split; [|split].
    + apply removeAll_keeps_no_char.
      apply (Forall_nth_str (fun w => no_char "010" w = true));
        [apply split_pieces; now right | lia].
    + apply removeAll_keeps_no_char.
      apply (Forall_nth_str (fun w => no_char "," w = true));
        [apply split_pieces; now left | lia].
    + apply removeAll_no_char.
  - apply parseMillenniumCSV_In in H as (i & Hi & Hrow).
    pose proof (millennium_row_Some _ _ _ _ Hrow) as (Hlen & _ & _ & Hdesc & _).
    cbv zeta in Hlen, Hdesc. rewrite Hdesc.
    set (line := nth i (split "010" text) "") in *.
    assert (Hline : no_char "010" line = true).
    { apply (Forall_nth_str (fun w => no_char "010" w = true));
        [apply split_pieces; now left | lia]. }
    split.
    + apply (Forall_nth_str (fun w => no_char "010" w = true));
        [apply split_pieces; now right | lia].
    + apply (Forall_nth_str (fun w => no_char ";" w = true));
        [apply split_pieces; now left | lia].
Qed.

(** X4: whatever the three parsers return starts in category Other, with
    [ignored] undefined and the source tag of its parser; a spreadsheet
    row is kept only with a description that is not empty and an amount
    that is a number, and an Expense among them has a strictly positive
    amount. *)
Theorem import_defaults :
  forall (now : nat -> Z) (text : string) (num_str : number -> string)
         (json : list row) (tx : Transaction),
    (In tx (parseRevolutCSV now text) ->
       category tx = Category.Other /\ ignored tx = None /\
       source tx = Revolut) /\
    (In tx (parseMillenniumCSV now text) ->
       category tx = Category.Other /\ ignored tx = None /\
       source tx = Millennium) /\
    (In tx (parseGenericXLSX num_str now json) ->
       category tx = Category.Other /\ ignored tx = None /\
       source tx = XLSX /\
       description tx <> "" /\ isNaN (amount tx) = false /\
       (type tx = Expense -> gtb (amount tx) zero = true)).
Proof.
  intros now text num_str json tx. split; [|split]; intros H.
  - apply parseRevolutCSV_In in H as (i & _ & Hrow).
    apply revolut_row_fields in Hrow as (_ & _ & Hc & Hs & Hi). auto.
  - apply parseMillenniumCSV_In in H as (i & _ & Hrow).
    apply millennium_row_Some in Hrow
      as (_ & _ & _ & _ & _ & _ & Hc & Hs & Hi). auto.
  - apply parseGenericXLSX_In in H as (i & r & _ & -> & Hnan & Hdesc).
    repeat split; auto.
    unfold xlsx_row; simpl.
    set (x := parseFloat _).
    destruct (ltb x zero) eqn:Hlt; [intros _ | discriminate].
    now apply abs_pos_of_neg.
Qed.

Section Concatenation.

Lemma split_app (sep : ascii) (a b : string) :
  split sep (a ++ String sep b) = split sep a ++ split sep b.
Proof.
  induction a as [|c a IH]; simpl.
  - now rewrite Ascii.eqb_refl.
  - rewrite IH. destruct (Ascii.eqb c sep); [reflexivity|].
    pose proof (split_nonempty sep a) as Hne.
    destruct (split sep a) as [|w ws]; [now elim Hne | reflexivity].
Qed.

Lemma flat_map_ext_In {A B : Type} (f g : A -> list B) (l : list A) :
  (forall a, In a l -> f a = g a) -> flat_map f l = flat_map g l.
Proof.
  induction l as [|a l IH]; intros H; simpl; [reflexivity|].
  rewrite (H a) by now left. f_equal. apply IH. intros x Hx.
  apply H. now right.
Qed.

Lemma flat_map_seq_add {A : Type} (f : nat -> list A) (n len : nat) :
  flat_map f (seq n len) = flat_map (fun k => f (n + k)%nat) (seq 0 len).
Proof.
  revert n. induction len as [|len IH]; intros n; simpl; [reflexivity|].
  rewrite Nat.add_0_r. f_equal.
  rewrite (IH (S n)), (flat_map_seq_shift (fun k => f (n + k)%nat)).
  apply flat_map_ext_In. intros k _. f_equal. lia.
Qed.

(** The loop treats each line by itself: over two runs of lines it gives
    what it gives over the first, then the rows of the second. *)
Lemma rows_from_1_app (body : nat -> string -> option Transaction)
      (ls ls' : list string) :
  ls <> [] ->
  rows_from_1 body (ls ++ ls')
  = rows_from_1 body ls ++ rows_at body (List.length ls) ls'.
Proof.
  intros Hne. unfold rows_from_1, rows_at.
  assert (Hlen : (1 <= List.length ls)%nat)
    by (destruct ls; [now elim Hne | simpl; lia]).
  rewrite length_app.
  replace (List.length ls + List.length ls' - 1)%nat
    with ((List.length ls - 1) + List.length ls')%nat by lia.
  rewrite seq_app, flat_map_app.
  replace (1 + (List.length ls - 1))%nat with (List.length ls) by lia.
  f_equal.
  - apply flat_map_ext_In. intros i Hi. apply in_seq in Hi.
    now rewrite app_nth1 by lia.
  - rewrite flat_map_seq_add. apply flat_map_ext_In. intros k Hk.
    rewrite app_nth2 by lia. do 3 f_equal. lia.
Qed.

Lemma rows_from_1_length (body : nat -> string -> option Transaction)
      (lines : list string) :
  (List.length (rows_from_1 body lines) <= List.length lines - 1)%nat.
Proof.
  unfold rows_from_1.
  generalize (List.length lines - 1)%nat as n. generalize 1%nat as start.
  intros start n. revert start.
  induction n as [|n IH]; intros start; simpl; [lia|].
  rewrite length_app. specialize (IH (S start)).
  destruct (body start (nth start lines "")); simpl; lia.
Qed.

End Concatenation.

(** X5: both delimited-text parsers work line by line.  For a text made
    of [t1], a line feed and [t2], the result is the result for [t1]
    followed by the transactions of the lines of [t2], numbered after
    those of [t1]: the transactions come in the order of their lines, and
    no line has a part in what another line gives. *)
Theorem csv_parsers_line_by_line :
  forall (now : nat -> Z) (t1 t2 : string),
    parseRevolutCSV now (t1 ++ LF ++ t2)
    = parseRevolutCSV now t1
      ++ rows_at (fun i line => revolut_row (now i) i line)
                 (List.length (split "010" t1)) (split "010" t2) /\
    parseMillenniumCSV now (t1 ++ LF ++ t2)
    = parseMillenniumCSV now t1
      ++ rows_at (fun i line => millennium_row (now i) i line)
                 (List.length (split "010" t1)) (split "010" t2).
Proof.
  intros now t1 t2. unfold parseRevolutCSV, parseMillenniumCSV, LF.
  change (String "010" "" ++ t2)%string with (String "010" t2).
  rewrite split_app.
  split; apply rows_from_1_app, split_nonempty.
Qed.

(** X6: neither parser returns more transactions than the text has lines
    after the first, that is, than it has line feeds; the empty text gives
    none. *)
Theorem csv_result_length_bound :
  forall (now : nat -> Z) (text : string),
    (List.length (parseRevolutCSV now text)
     <= List.length (split "010" text) - 1)%nat /\
    (List.length (parseMillenniumCSV now text)
     <= List.length (split "010" text) - 1)%nat /\
    parseRevolutCSV now "" = [] /\ parseMillenniumCSV now "" = [].
Proof.
  intros now text. unfold parseRevolutCSV, parseMillenniumCSV.
  repeat split; try apply rows_from_1_length.
Qed.

(** X7: a line feed at the end of the text changes nothing: the empty
    last line it makes is skipped by both parsers. *)
Theorem csv_trailing_newline :
  forall (now : nat -> Z) (text : string),
    parseRevolutCSV now (text ++ LF) = parseRevolutCSV now text /\
    parseMillenniumCSV now (text ++ LF) = parseMillenniumCSV now text.
Proof.
  intros now text. unfold parseRevolutCSV, parseMillenniumCSV, LF.
  rewrite split_app, !rows_from_1_app by apply split_nonempty.
  unfold rows_at. simpl. now rewrite !app_nil_r.
Qed.

Lemma millennium_row_None (now : Z) (i : nat) (line : string) :
  millennium_row now i line = None <->
  (List.length (split ";" line) <? 5)%nat
  || negb (truthy (col (split ";" line) 0))
  || isNaN (add (parseFloat (decimal_field (split ";" line) 3))
                (parseFloat (decimal_field (split ";" line) 4))) = true.
Proof.
  unfold millennium_row.
  destruct (List.length (split ";" line) <? 5)%nat; simpl;
    [split; reflexivity|].
  destruct (negb (truthy (col (split ";" line) 0)) || isNaN _);
    split; (reflexivity || discriminate).
Qed.

(** X8: with carriage returns before the line feeds, a Format B row whose
    fifth and last column is empty is skipped: the credit field is then a
    lone carriage return, which is not empty, so it is not read as 0, and
    it does not parse as a number.  Without the carriage return the same
    row is skipped only for an empty date or a debit that does not
    parse. *)
Theorem millennium_cr_after_empty_credit :
  forall (now : Z) (i : nat) (pre : string),
    List.length (split ";" pre) = 4%nat ->
    millennium_row now i (pre ++ ";" ++ CR) = None /\
    (millennium_row now i (pre ++ ";") = None <->
       col (split ";" pre) 0 = "" \/
       isNaN (parseFloat (decimal_field (split ";" pre) 3)) = true).
Proof.
  intros now i pre Hlen.
  assert (Hcols : forall last, no_char ";" last = true ->
            split ";" (pre ++ String ";" last) = split ";" pre ++ [last]).
  { intros last Hl. now rewrite split_app, (split_no_sep _ _ Hl). }
  assert (Hd : forall last,
            decimal_field (split ";" pre ++ [last]) 3
            = decimal_field (split ";" pre) 3).
  { intros last. unfold decimal_field.
    now rewrite nth_error_app1 by (rewrite Hlen; lia). }
  assert (Hc : forall last,
            decimal_field (split ";" pre ++ [last]) 4
            = or_else (replaceFirst "," "." last) "0").
  { intros last. unfold decimal_field.
    rewrite nth_error_app2 by (rewrite Hlen; lia).
    now rewrite Hlen. }
  assert (H0 : forall last,
            col (split ";" pre ++ [last]) 0 = col (split ";" pre) 0).
  { intros last. unfold col. now rewrite app_nth1 by (rewrite Hlen; lia). }
  split.
  - change (pre ++ ";" ++ CR)%string with (pre ++ String ";" CR)%string.
    rewrite millennium_row_None, (Hcols CR eq_refl), Hd, Hc, add_isNaN.
    change (isNaN (parseFloat (or_else (replaceFirst "," "." CR) "0")))
      with true.
    now rewrite orb_true_r, orb_true_l, orb_true_r.
  - change (pre ++ ";")%string with (pre ++ String ";" "")%string.
    rewrite millennium_row_None, (Hcols "" eq_refl), Hd, Hc, H0, add_isNaN.
    rewrite length_app, Hlen.
    change (parseFloat (or_else (replaceFirst "," "." "") "0")) with zero.
    set (debit := parseFloat _).
    assert (Ho : opposite_infinities debit zero = false)
      by (destruct debit; reflexivity).
    rewrite Ho. simpl. rewrite !orb_false_r.
    destruct (truthy (col (split ";" pre) 0)) eqn:Hdate; simpl.
    + destruct (isNaN debit); split; auto; try discriminate.
      intros [H|H]; [|discriminate]. rewrite H in Hdate. discriminate.
    + apply truthy_false in Hdate. split; auto.
Qed.

(** The row of the Pingo Doce scenario, kept with bare line feeds, is
    lost with carriage returns. *)
Lemma millennium_cr_after_empty_credit_witness :
  millennium_row 0 1 ("05-01-2024;;Pingo Doce;12,50" ++ ";" ++ CR) = None /\
  parseMillenniumCSV (fun _ => 0%Z)
    (millennium_header ++ CR ++ LF ++ pingo_doce_row ++ CR ++ LF) = [] /\
  parseMillenniumCSV (fun _ => 0%Z)
    (millennium_header ++ LF ++ pingo_doce_row ++ LF) = [pingo_doce_tx 0].
Proof.
  split; [|split; reflexivity].
  exact (proj1 (millennium_cr_after_empty_credit
                  0 1 "05-01-2024;;Pingo Doce;12,50" eq_refl)).
Defined.

(* ================================================================== *)
(** * More on the rule engine and the rule list *)

Section RuleList.

Context {A : Type} (f : A -> bool).

Lemma find_app_matched (l more : list A) :
  existsb f l = true -> find f (l ++ more) = find f l.
Proof.
  induction l as [|a l IH]; simpl; [discriminate|].
  destruct (f a); [reflexivity | exact IH].
Qed.

Lemma find_app_unmatched (l more : list A) :
  existsb f l = false -> find f (l ++ more) = find f more.
Proof.
  induction l as [|a l IH]; simpl; [reflexivity|].
  destruct (f a); [discriminate | exact IH].
Qed.

Lemma find_filter_keep (g : A -> bool) (l : list A) :
  (forall x, In x l -> f x = true -> g x = true) ->
  find f (filter g l) = find f l.
Proof.
  induction l as [|a l IH]; intros H; simpl; [reflexivity|].
  assert (IH' : find f (filter g l) = find f l)
    by (apply IH; intros x Hx; apply H; now right).
  destruct (g a) eqn:Hg; simpl.
  - now rewrite IH'.
  - destruct (f a) eqn:Hf; [|exact IH'].
    rewrite (H a) in Hg; [discriminate | now left | exact Hf].
Qed.

End RuleList.

(** The result depends on the rules through the first matching one
    alone. *)
Lemma applyRules_by_find (tx : Transaction) (rules rules' : list AutoRule) :
  find (rule_match (desc_of tx)) rules
  = find (rule_match (desc_of tx)) rules' ->
  applyRulesToTransaction tx rules = applyRulesToTransaction tx rules'.
Proof.
  intros H. unfold applyRulesToTransaction. fold (desc_of tx).
  now rewrite !scan_rules_find, H.
Qed.

Lemma startsWith_refl (s : string) : startsWith s s = true.
Proof.
  induction s as [|c s IH]; simpl; [reflexivity|].
  now rewrite Ascii.eqb_refl.
Qed.

Lemma newRule_matches (now : Z) (tx : Transaction) (ty : RuleType)
      (action : RuleAction) :
  rule_match (desc_of tx) (newRule now tx ty action) = true.
Proof.
  unfold rule_match, desc_of. simpl. destruct ty.
  - apply String.eqb_refl.
  - apply startsWith_refl.
Qed.

(** X9: deleting rules that do not match a transaction never changes how
    it is classified: if no rule with the deleted id matches it, the
    engine gives the same result with the rule list after [deleteRule] as
    before. *)
Theorem deleteRule_unmatched :
  forall (tx : Transaction) (rules : list AutoRule) (id0 : string),
    (forall r, In r rules -> rule_id r = id0 ->
               rule_match (desc_of tx) r = false) ->
    applyRulesToTransaction tx (deleteRule id0 rules)
    = applyRulesToTransaction tx rules.
Proof.
  intros tx rules id0 H. apply applyRules_by_find. unfold deleteRule.
  apply find_filter_keep. intros r Hin Hm.
  destruct (String.eqb (rule_id r) id0) eqn:E; [|reflexivity].
  apply String.eqb_eq in E. rewrite (H r Hin E) in Hm. discriminate.
Qed.

Lemma deleteRule_unmatched_witness :
  applyRulesToTransaction
    (sample_tx "Netflix" Category.Other)
    (deleteRule "r" [sample_rule "spotify" exact (Some Category.Health) None])
  = applyRulesToTransaction
      (sample_tx "Netflix" Category.Other)
      [sample_rule "spotify" exact (Some Category.Health) None].
Proof.
  apply deleteRule_unmatched.
  intros r [<-|[]] _. reflexivity.
Defined.

(** X10: new rules go to the end of the list, so they never change a
    transaction that an older rule matches: the rule [createRuleFromTx]
    adds, from whatever transaction, has no effect on it. *)
Theorem appended_rule_after_match :
  forall (tx : Transaction) (rules more : list AutoRule),
    existsb (rule_match (desc_of tx)) rules = true ->
    applyRulesToTransaction tx (rules ++ more)
    = applyRulesToTransaction tx rules /\
    (forall now tx0 ty action,
        applyRulesToTransaction tx (createRuleFromTx now tx0 ty action rules)
        = applyRulesToTransaction tx rules).
Proof.
  intros tx rules more H. split; [|intros now tx0 ty action];
    apply applyRules_by_find, find_app_matched, H.
Qed.

(** The older rule keeps a transaction in Food although the rule made
    from it would hide it. *)
Lemma appended_rule_after_match_witness :
  applyRulesToTransaction
    (sample_tx "Lidl Lisboa" Category.Other)
    (createRuleFromTx 0 (sample_tx "Lidl Lisboa" Category.Other)
                      starts_with action_ignore
                      [sample_rule "lidl" starts_with (Some Category.Food)
                                   None])
  = sample_tx "Lidl Lisboa" Category.Food.
Proof.
  rewrite (proj2 (appended_rule_after_match
                    (sample_tx "Lidl Lisboa" Category.Other)
                    [sample_rule "lidl" starts_with (Some Category.Food)
                                 None]
                    [] eq_refl)).
  reflexivity.
Defined.

(** X11: the rule [createRuleFromTx] makes from a transaction matches
    that transaction, in either mode.  When no older rule matches it, the
    new list classifies it by the new rule: an ignore rule sets [ignored]
    to true and leaves the category; a category rule leaves the
    transaction exactly as it is, and so keeps the keyword map away from
    it, also when its category is Other. *)
Theorem created_rule_matches_its_transaction :
  forall (now : Z) (tx : Transaction) (ty : RuleType)
         (rules : list AutoRule),
    existsb (rule_match (desc_of tx)) rules = false ->
    applyRulesToTransaction
      tx (createRuleFromTx now tx ty action_category rules) = tx /\
    applyRulesToTransaction
      tx (createRuleFromTx now tx ty action_ignore rules)
    = {| id := id tx; date := date tx; description := description tx;
         amount := amount tx; category := category tx;
         source := source tx; type := type tx; ignored := Some true |}.
Proof.
  intros now tx ty rules H.
  unfold createRuleFromTx, applyRulesToTransaction. fold (desc_of tx).
  rewrite !scan_rules_find, !find_app_unmatched by exact H.
  simpl find. rewrite !newRule_matches.
  split; [destruct tx|]; reflexivity.
Qed.

(** A category rule made from an "Uber" transaction still in Other pins
    it to Other. *)
Lemma created_rule_matches_its_transaction_witness :
  applyRulesToTransaction (sample_tx "Uber" Category.Other) []
  = sample_tx "Uber" Category.Transport /\
  applyRulesToTransaction
    (sample_tx "Uber" Category.Other)
    (createRuleFromTx 0 (sample_tx "Uber" Category.Other) exact
                      action_category [])
  = sample_tx "Uber" Category.Other.
Proof.
  split; [reflexivity|].
  exact (proj1 (created_rule_matches_its_transaction
                  0 (sample_tx "Uber" Category.Other) exact [] eq_refl)).
Defined.

Section Sameness.

Lemma applyRules_unmatched (tx : Transaction) (rules : list AutoRule) :
  existsb (rule_match (desc_of tx)) rules = false ->
  ignored (applyRulesToTransaction tx rules) = ignored tx /\
  (category tx <> Category.Other -> applyRulesToTransaction tx rules = tx).
Proof.
  intros H. unfold applyRulesToTransaction. fold (desc_of tx).
  rewrite (scan_rules_none tx _ rules H), scan_map_find. split.
  - destruct (Category.eqb _ _); [|reflexivity].
    destruct (find _ DEFAULT_CATEGORY_MAP); reflexivity.
  - intros Hc. destruct (category tx); try reflexivity. now elim Hc.
Qed.

Lemma scan_rules_same (tx : Transaction) (d : string)
      (rules rules' : list AutoRule) :
  Forall2 same_rule rules rules' ->
  scan_rules tx d rules = scan_rules tx d rules'.
Proof.
  induction 1 as [|r r' rs rs' (Hp & Ht & Hc & Hi) _ IH]; simpl;
    [reflexivity|].
  unfold rule_match, rule_result. rewrite Hp, Ht, Hc, Hi, IH. reflexivity.
Qed.

End Sameness.

(** X12: classification does not look at letter case, nor at rule ids.
    Two transactions whose descriptions agree up to case, with the same
    category and [ignored], get the same category and [ignored]; and
    replacing the rules by rules that agree with them up to ids and the
    case of the patterns gives the same result. *)
Theorem classification_ignores_case :
  forall (tx tx' : Transaction) (rules rules' : list AutoRule),
    toLowerCase (description tx) = toLowerCase (description tx') ->
    category tx = category tx' ->
    ignored tx = ignored tx' ->
    Forall2 same_rule rules rules' ->
    category (applyRulesToTransaction tx rules)
    = category (applyRulesToTransaction tx' rules') /\
    ignored (applyRulesToTransaction tx rules)
    = ignored (applyRulesToTransaction tx' rules') /\
    applyRulesToTransaction tx rules = applyRulesToTransaction tx rules'.
Proof.
  intros tx tx' rules rules' Hd Hc Hi Hr.
  assert (Hsame : applyRulesToTransaction tx rules
                  = applyRulesToTransaction tx rules').
  { unfold applyRulesToTransaction.
    now rewrite (scan_rules_same tx _ rules rules' Hr). }
  rewrite Hsame. clear Hsame Hr rules.
  unfold applyRulesToTransaction.
  rewrite !scan_rules_find, !scan_map_find, Hd, Hc.
  destruct (find _ rules') as [r|].
  - simpl. now rewrite Hc, Hi.
  - destruct (Category.eqb _ _); [|auto].
    destruct (find _ DEFAULT_CATEGORY_MAP); simpl; auto.
Qed.

Lemma classification_ignores_case_witness :
  category (applyRulesToTransaction
              (sample_tx "NETFLIX.COM" Category.Other)
              [sample_rule "Netflix" starts_with (Some Category.Shopping)
                           None])
  = category (applyRulesToTransaction
                (sample_tx "netflix.com" Category.Other)
                [sample_rule "NETFLIX" starts_with (Some Category.Shopping)
                             None]).
Proof.
  apply (classification_ignores_case
           (sample_tx "NETFLIX.COM" Category.Other)
           (sample_tx "netflix.com" Category.Other)
           [sample_rule "Netflix" starts_with (Some Category.Shopping) None]
           [sample_rule "NETFLIX" starts_with (Some Category.Shopping) None]
           eq_refl eq_refl eq_refl).
  repeat constructor.
Defined.

(** X13: the engine changes [ignored] only through a matching rule that
    carries a [shouldIgnore], and the category only through a matching
    rule that carries that target category or, when the category was
    Other and no rule matches, through a keyword of the default map that
    occurs in the description. *)
Theorem changes_come_from_a_rule_or_keyword :
  forall (tx : Transaction) (rules : list AutoRule),
    let tx' := applyRulesToTransaction tx rules in
    (ignored tx' = ignored tx \/
     exists r b, In r rules /\ rule_match (desc_of tx) r = true /\
                 shouldIgnore r = Some b /\ ignored tx' = Some b) /\
    (category tx' = category tx \/
     (exists r, In r rules /\ rule_match (desc_of tx) r = true /\
                targetCategory r = Some (category tx')) \/
     (category tx = Category.Other /\
      existsb (rule_match (desc_of tx)) rules = false /\
      exists key, In (key, category tx') DEFAULT_CATEGORY_MAP /\
                  includes (desc_of tx) key = true)).
Proof.
  intros tx rules. cbv zeta.
  unfold applyRulesToTransaction. fold (desc_of tx).
  rewrite scan_rules_find, scan_map_find.
  destruct (find (rule_match (desc_of tx)) rules) as [r|] eqn:Hr.
  - apply find_some in Hr as [Hin Hm]. simpl. split.
    + destruct (shouldIgnore r) as [b|] eqn:Hs; [right|now left].
      exists r, b. auto.
    + destruct (targetCategory r) as [c|] eqn:Hc; [right; left|now left].
      exists r. auto.
  - assert (Hno : existsb (rule_match (desc_of tx)) rules = false).
    { destruct (existsb _ rules) eqn:E; [|reflexivity].
      apply existsb_exists in E as (x & Hx & Hm).
      now rewrite (find_none _ _ Hr x Hx) in Hm. }
    destruct (Category.eqb (category tx) Category.Other) eqn:Hc;
      [|split; now left].
    apply Category_eqb_eq in Hc.
    destruct (find _ DEFAULT_CATEGORY_MAP) as [[key c]|] eqn:Hk;
      [|split; now left].
    apply find_some in Hk as [Hin Hinc]. simpl in *.
    split; [now left|]. right; right.
    split; [exact Hc|]. split; [exact Hno|]. exists key. auto.
Qed.

(** X14: what a pass has set outlives the rules that set it.  Whatever
    rules classified a transaction, a later pass with rules none of which
    matches it keeps its [ignored], and keeps the whole transaction when
    its category is no longer Other: deleting a rule does not undo what
    the rule did. *)
Theorem effects_outlive_rules :
  forall (tx : Transaction) (rules rules' : list AutoRule),
    existsb (rule_match (desc_of tx)) rules' = false ->
    let tx1 := applyRulesToTransaction tx rules in
    ignored (applyRulesToTransaction tx1 rules') = ignored tx1 /\
    (category tx1 <> Category.Other ->
     applyRulesToTransaction tx1 rules' = tx1).
Proof.
  intros tx rules rules' H tx1.
  apply applyRules_unmatched.
  unfold desc_of, tx1. rewrite applyRules_description. exact H.
Qed.

(** A transaction a rule hid and moved to Health stays hidden and in
    Health after the rule is deleted, although "uber" is a keyword. *)
Lemma effects_outlive_rules_witness :
  applyRulesToTransaction
    (applyRulesToTransaction
       (sample_tx "Uber" Category.Other)
       [sample_rule "uber" exact (Some Category.Health) (Some true)])
    (deleteRule "r"
       [sample_rule "uber" exact (Some Category.Health) (Some true)])
  = applyRulesToTransaction
      (sample_tx "Uber" Category.Other)
      [sample_rule "uber" exact (Some Category.Health) (Some true)].
Proof.
  apply (proj2 (effects_outlive_rules
                  (sample_tx "Uber" Category.Other)
                  [sample_rule "uber" exact (Some Category.Health)
                               (Some true)]
                  (deleteRule "r"
                     [sample_rule "uber" exact (Some Category.Health)
                                  (Some true)])
                  eq_refl)).
  discriminate.
Defined.

(* ================================================================== *)
(** * The upload service *)

Section Upload.

Lemma applyRules_keeps (tx : Transaction) (rules : list AutoRule) :
  id (applyRulesToTransaction tx rules) = id tx /\
  amount (applyRulesToTransaction tx rules) = amount tx /\
  type (applyRulesToTransaction tx rules) = type tx /\
  source (applyRulesToTransaction tx rules) = source tx.
Proof.
  unfold applyRulesToTransaction.
  rewrite scan_rules_find, scan_map_find.
  destruct (find _ rules); [repeat split|].
  destruct (Category.eqb _ _); [|repeat split].
  destruct (find _ DEFAULT_CATEGORY_MAP); repeat split.
Qed.

Lemma upload_parse_source (now : nat -> Z) (name text : string)
      (tx : Transaction) :
  In tx (upload_parse now name text) ->
  source tx =
    if includes (toLowerCase name) "revolut" then Revolut
    else if includes (toLowerCase name) "millennium" || includes text ";"
         then Millennium else Revolut.
Proof.
  unfold upload_parse.
  destruct (includes (toLowerCase name) "revolut").
  - intros H. apply parseRevolutCSV_In in H as (i & _ & Hrow).
    now apply revolut_row_fields in Hrow as (_ & _ & _ & Hs & _).
  - destruct (includes (toLowerCase name) "millennium" || includes text ";").
    + intros H. apply parseMillenniumCSV_In in H as (i & _ & Hrow).
      now apply millennium_row_Some in Hrow
        as (_ & _ & _ & _ & _ & _ & _ & Hs & _).
    + intros H. apply parseRevolutCSV_In in H as (i & _ & Hrow).
      now apply revolut_row_fields in Hrow as (_ & _ & _ & Hs & _).
Qed.

End Upload.

(** X15: the upload service never reports success without transactions.
    Its response is either a failure, with the fixed message and no data,
    or a success whose data is not empty, holds one classified
    transaction for each parsed one, in order, and whose message starts
    with their count. *)
Theorem upload_response_shape :
  forall (now : nat -> Z) (name text : string) (rules : list AutoRule),
    let r := uploadFileService now name text rules in
    (success r = false /\ data r = None /\
     message r = empty_file_message /\
     upload_parse now name text = []) \/
    (success r = true /\
     exists l, data r = Some l /\ l <> [] /\
               l = map (fun t => applyRulesToTransaction t rules)
                       (upload_parse now name text) /\
               message r = (JsString.of_nat (List.length l)
                            ++ imported_suffix)%string).
Proof.
  intros now name text rules. cbv zeta. unfold uploadFileService.
  destruct (upload_parse now name text) as [|t ts] eqn:Hp; simpl.
  - left. auto.
  - right. split; [reflexivity|]. eexists.
    split; [reflexivity|]. split; [discriminate|]. split; reflexivity.
Qed.

(** X16: a text without a line feed is rejected whatever the file is
    called and whatever the rules are: its only line is the one both
    parsers skip. *)
Theorem upload_rejects_single_line :
  forall (now : nat -> Z) (name text : string) (rules : list AutoRule),
    no_char "010" text = true ->
    uploadFileService now name text rules
    = {| success := false; message := empty_file_message; data := None |}.
Proof.
  intros now name text rules H.
  assert (Hp : upload_parse now name text = []).
  { unfold upload_parse, parseRevolutCSV, parseMillenniumCSV.
    rewrite (split_no_sep _ _ H).
    destruct (includes _ "revolut"); [reflexivity|].
    destruct (_ || _); reflexivity. }
  unfold uploadFileService. now rewrite Hp.
Qed.

Lemma upload_rejects_single_line_witness :
  uploadFileService (fun _ => 0%Z) "millennium.csv" pingo_doce_row []
  = {| success := false; message := empty_file_message; data := None |}.
Proof.
  exact (upload_rejects_single_line (fun _ => 0%Z) "millennium.csv"
           pingo_doce_row [] eq_refl).
Defined.

(** X17: which parser the upload service uses shows in the source tag of
    what it returns: with "revolut" in the file name, in any letter case,
    every transaction is a Revolut one even when the text holds
    semicolons; otherwise "millennium" in the name or a semicolon anywhere
    in the text makes them Millennium ones; anything else is read as
    Revolut.  The rule pass leaves ids, amounts and types as parsed. *)
Theorem upload_dispatch :
  forall (now : nat -> Z) (name text : string) (rules : list AutoRule)
         (l : list Transaction),
    data (uploadFileService now name text rules) = Some l ->
    Forall (fun t => source t =
              if includes (toLowerCase name) "revolut" then Revolut
              else if includes (toLowerCase name) "millennium"
                      || includes text ";"
                   then Millennium else Revolut) l /\
    map id l = map id (upload_parse now name text) /\
    map amount l = map amount (upload_parse now name text) /\
    map type l = map type (upload_parse now name text).
Proof.
  intros now name text rules l. unfold uploadFileService.
  destruct (List.length (upload_parse now name text) =? 0)%nat;
    simpl; [discriminate|].
  intros H. injection H as <-.
  split; [|rewrite !map_map; repeat split; apply map_ext; intros t;
           destruct (applyRules_keeps t rules) as (H1 & H2 & H3 & _);
           assumption].
  apply Forall_forall. intros t Ht.
  apply in_map_iff in Ht as (t0 & <- & Ht0).
  destruct (applyRules_keeps t0 rules) as (_ & _ & _ & ->).
  exact (upload_parse_source now name text t0 Ht0).
Qed.

(** A Millennium text under a name with "Revolut" in it is read with the
    comma parser, which finds no row in it. *)
Lemma upload_dispatch_witness :
  Forall (fun t => source t = Millennium)
         [with_category (pingo_doce_tx 0) Category.Food] /\
  success (uploadFileService (fun _ => 0%Z) "Revolut-2024.csv"
             (millennium_header ++ LF ++ pingo_doce_row) []) = false.
Proof.
  split; [|reflexivity].
  exact (proj1 (upload_dispatch
                  (fun _ => 0%Z) "extrato.csv"
                  (millennium_header ++ LF ++ pingo_doce_row) []
                  [with_category (pingo_doce_tx 0) Category.Food]
                  eq_refl)).
Defined.

(* ================================================================== *)
(** * Identifiers *)

Section Identifiers.

Lemma of_Z_inj (z z' : Z) : JsString.of_Z z = JsString.of_Z z' -> z = z'.
Proof.
  unfold JsString.of_Z. intros H. apply DecimalZ.to_int_inj.
  pose proof (NilEmpty.isi (Z.to_int z)) as E.
  rewrite H, NilEmpty.isi in E. now injection E.
Qed.

Lemma of_nat_inj (n n' : nat) :
  JsString.of_nat n = JsString.of_nat n' -> n = n'.
Proof. unfold JsString.of_nat. intros H. apply of_Z_inj in H. lia. Qed.

Lemma string_of_uint_no_dash (d : Decimal.uint) :
  no_char "-" (NilEmpty.string_of_uint d) = true.
Proof. induction d; simpl; auto. Qed.

Lemma of_nat_no_dash (n : nat) : no_char "-" (JsString.of_nat n) = true.
Proof.
  unfold JsString.of_nat, JsString.of_Z.
  destruct (Z.of_nat n) eqn:E; [reflexivity | | lia].
  apply string_of_uint_no_dash.
Qed.

(** A string is cut at its first occurrence of a code unit in one way. *)
Lemma first_cut_unique (c : ascii) (a a' b b' : string) :
  no_char c a = true -> no_char c a' = true ->
  (a ++ String c b)%string = (a' ++ String c b')%string -> a = a'.
Proof.
  revert a'. induction a as [|x a IH]; intros a' Ha Ha' H.
  - destruct a' as [|y a']; [reflexivity|]. simpl in *.
    injection H as <- _. now rewrite Ascii.eqb_refl in Ha'.
  - destruct a' as [|y a']; simpl in *.
    + injection H as -> _. now rewrite Ascii.eqb_refl in Ha.
    + injection H as <- H.
      apply andb_true_iff in Ha as [_ Ha].
      apply andb_true_iff in Ha' as [_ Ha'].
      f_equal. now apply IH.
Qed.

(** The ids the parsers build tell the row index. *)
Lemma row_id_index (tag : string) (i j : nat) (z z' : Z) :
  (tag ++ JsString.of_nat i ++ "-" ++ JsString.of_Z z)%string
  = (tag ++ JsString.of_nat j ++ "-" ++ JsString.of_Z z')%string ->
  i = j.
Proof.
  induction tag as [|c tag IH]; simpl.
  - intros H. apply of_nat_inj.
    apply (first_cut_unique "-" _ _ _ _
             (of_nat_no_dash i) (of_nat_no_dash j) H).
  - intros H. injection H as H. now apply IH.
Qed.

Lemma NoDup_map_on {A B : Type} (f : A -> B) (l : list A) :
  NoDup l ->
  (forall x y, In x l -> In y l -> f x = f y -> x = y) ->
  NoDup (map f l).
Proof.
  induction 1 as [|a l Hnin Hnd IH]; intros Hinj; simpl; constructor.
  - intros Hin. apply in_map_iff in Hin as (y & Hy & Hiny).
    assert (y = a) by (apply Hinj; simpl; auto). subst. contradiction.
  - apply IH. intros x y Hx Hy. apply Hinj; now right.
Qed.

Lemma NoDup_filter {A : Type} (p : A -> bool) (l : list A) :
  NoDup l -> NoDup (filter p l).
Proof.
  induction 1 as [|a l Hnin Hnd IH]; simpl; [constructor|].
  destruct (p a); [constructor|]; auto.
  intros Hin. apply filter_In in Hin as [Hin _]. contradiction.
Qed.

Lemma filter_map_comm {A B : Type} (f : A -> B) (p : B -> bool)
      (l : list A) :
  filter p (map f l) = map f (filter (fun x => p (f x)) l).
Proof.
  induction l as [|a l IH]; simpl; [reflexivity|].
  destruct (p (f a)); simpl; now rewrite IH.
Qed.

Lemma rows_ids_NoDup (body : nat -> string -> option Transaction)
      (lines : list string) (idxs : list nat) :
  (forall i j line line' tx tx',
      body i line = Some tx -> body j line' = Some tx' ->
      id tx = id tx' -> i = j) ->
  NoDup idxs ->
  NoDup (map id (flat_map (fun i => opt_list (body i (nth i lines ""))) idxs)).
Proof.
  intros Hinj. induction 1 as [|a idxs Hnin Hnd IH]; simpl; [constructor|].
  destruct (body a (nth a lines "")) as [tx|] eqn:Ha; simpl; [|exact IH].
  constructor; [|exact IH].
  intros Hin. apply in_map_iff in Hin as (tx' & Hid & Hin).
  apply in_flat_map in Hin as (j & Hj & Htx').
  destruct (body j (nth j lines "")) as [tx''|] eqn:Hb; simpl in Htx';
    [|contradiction].
  destruct Htx' as [<-|[]].
  assert (a = j) by (eapply Hinj; eauto). subst. contradiction.
Qed.

Lemma combine_seq_NoDup {A : Type} (l : list A) (start : nat) :
  NoDup (combine (seq start (List.length l)) l).
Proof.
  revert start. induction l as [|a l IH]; intros start; simpl;
    constructor; [|apply IH].
  intros Hin. apply In_combine_seq in Hin as [Hle _]. lia.
Qed.

End Identifiers.

(** X18: within one result of a parser no two transactions share an id,
    whatever the clock reads, even when it reads the same for every row:
    the row index in the id tells them apart. *)
Theorem import_ids_distinct :
  forall (now : nat -> Z) (text : string) (num_str : number -> string)
         (json : list row),
    NoDup (map id (parseRevolutCSV now text)) /\
    NoDup (map id (parseMillenniumCSV now text)) /\
    NoDup (map id (parseGenericXLSX num_str now json)).
Proof.
  intros now text num_str json. split; [|split].
  - unfold parseRevolutCSV, rows_from_1.
    apply (rows_ids_NoDup (fun i line => revolut_row (now i) i line));
      [|apply seq_NoDup].
    intros i j line line' tx tx' Hi Hj Hid.
    unfold revolut_row in Hi, Hj.
    destruct (_ <? 6)%nat; [discriminate|].
    destruct (isNaN _); [discriminate|].
    destruct (List.length (split "," line') <? 6)%nat; [discriminate|].
    destruct (isNaN (parseFloat (col (split "," line') 5)));
      [discriminate|].
    injection Hi as <-. injection Hj as <-. simpl in Hid.
    exact (row_id_index "rev-" i j _ _ Hid).
  - unfold parseMillenniumCSV, rows_from_1.
    apply (rows_ids_NoDup (fun i line => millennium_row (now i) i line));
      [|apply seq_NoDup].
    intros i j line line' tx tx' Hi Hj Hid.
    unfold millennium_row in Hi, Hj.
    destruct (_ <? 5)%nat; [discriminate|].
    destruct (_ || _); [discriminate|].
    destruct (List.length (split ";" line') <? 5)%nat; [discriminate|].
    destruct (_ || _); [discriminate|].
    injection Hi as <-. injection Hj as <-. simpl in Hid.
    exact (row_id_index "mil-" i j _ _ Hid).
  - unfold parseGenericXLSX. rewrite filter_map_comm.
    rewrite map_map. apply NoDup_map_on.
    + apply NoDup_filter, combine_seq_NoDup.
    + intros [i r] [j r'] Hx Hy Hid. simpl in Hid.
      apply filter_In in Hx as [Hx _]. apply filter_In in Hy as [Hy _].
      apply (row_id_index "xls-") in Hid. subst j.
      apply In_combine_seq in Hx as [_ Hx].
      apply In_combine_seq in Hy as [_ Hy].
      rewrite Hx in Hy. now injection Hy as ->.
Qed.

(* ================================================================== *)
(** * The state updates and the aggregates *)

Section Aggregates.

(** The totals read [ignored], [type] and [amount] only. *)
Lemma totals_ext (l l' : list Transaction) :
  map (fun t => (not_ignored t, type t, amount t)) l
  = map (fun t => (not_ignored t, type t, amount t)) l' ->
  totals l = totals l'.
Proof.
  unfold totals. generalize {| income := zero; expense := zero |}.
  revert l'. induction l as [|a l IH]; intros [|b l'] acc H;
    try discriminate; [reflexivity|].
  simpl in H. injection H as Hn Ht Ha Hrest. simpl. rewrite Hn.
  destruct (not_ignored b); simpl; [|now apply IH].
  unfold totals_step at 2 4. rewrite Ht, Ha. now apply IH.
Qed.

(** The per-category sums read the category as well. *)
Lemma categoryData_ext (l l' : list Transaction) :
  map (fun t => (not_ignored t, type t, amount t, category t)) l
  = map (fun t => (not_ignored t, type t, amount t, category t)) l' ->
  categoryData l = categoryData l'.
Proof.
  unfold categoryData. generalize (@nil (Category * number)).
  revert l'. induction l as [|a l IH]; intros [|b l'] acc H;
    try discriminate; [reflexivity|].
  simpl in H. injection H as Hn Ht Ha Hc Hrest. simpl. rewrite Hn, Ht.
  destruct (type b), (not_ignored b); simpl; try now apply IH.
  rewrite Hc, Ha. now apply IH.
Qed.

Lemma not_ignored_flip (t : Transaction) :
  not_ignored (flip_ignored t) = negb (not_ignored t).
Proof.
  unfold not_ignored at 1. unfold flip_ignored. cbn [ignored].
  unfold not_ignored. destruct (ignored t) as [[]|]; reflexivity.
Qed.

End Aggregates.

(** X19: ignoring a transaction and restoring it leaves every total as it
    was: after two [toggleIgnore] with the same id each transaction counts
    or not as before, so [totals] and [categoryData] are unchanged (the
    field itself may have gone from undefined to false). *)
Theorem toggleIgnore_twice :
  forall (id0 : string) (txs : list Transaction),
    let txs2 := toggleIgnore id0 (toggleIgnore id0 txs) in
    map not_ignored txs2 = map not_ignored txs /\
    map (fun t => (id t, date t, description t, amount t, category t,
                   source t, type t)) txs2
    = map (fun t => (id t, date t, description t, amount t, category t,
                     source t, type t)) txs /\
    totals txs2 = totals txs /\
    categoryData txs2 = categoryData txs.
Proof.
  intros id0 txs. cbv zeta.
  assert (H : forall t,
    let t2 := (if String.eqb (id (if String.eqb (id t) id0
                                  then flip_ignored t else t)) id0
               then flip_ignored (if String.eqb (id t) id0
                                  then flip_ignored t else t)
               else (if String.eqb (id t) id0 then flip_ignored t else t)) in
    not_ignored t2 = not_ignored t /\ id t2 = id t /\ date t2 = date t /\
    description t2 = description t /\ amount t2 = amount t /\
    category t2 = category t /\ source t2 = source t /\ type t2 = type t).
  { intros t. cbv zeta. destruct (String.eqb (id t) id0) eqn:E.
    - simpl id. rewrite E. rewrite !not_ignored_flip, negb_involutive.
      repeat split.
    - rewrite E. repeat split. }
  unfold toggleIgnore.
  split; [|split; [|split]].
  - rewrite !map_map. apply map_ext. intros t. apply (H t).
  - rewrite !map_map. apply map_ext. intros t.
    destruct (H t) as (_ & -> & -> & -> & -> & -> & -> & ->). reflexivity.
  - apply totals_ext. rewrite !map_map. apply map_ext. intros t.
    destruct (H t) as (-> & _ & _ & _ & -> & _ & _ & ->). reflexivity.
  - apply categoryData_ext. rewrite !map_map. apply map_ext. intros t.
    destruct (H t) as (-> & _ & _ & _ & -> & -> & _ & ->). reflexivity.
Qed.

(** X20: for the totals, ignoring is deleting.  When the transactions
    with a given id are not ignored, [toggleIgnore] on that id leaves the
    same transactions counted as [deleteTransaction] on it, hence the same
    [totals] and the same [categoryData]. *)
Theorem toggleIgnore_counts_as_delete :
  forall (id0 : string) (txs : list Transaction),
    (forall t, In t txs -> id t = id0 -> not_ignored t = true) ->
    filter not_ignored (toggleIgnore id0 txs)
    = filter not_ignored (deleteTransaction id0 txs) /\
    totals (toggleIgnore id0 txs) = totals (deleteTransaction id0 txs) /\
    categoryData (toggleIgnore id0 txs)
    = categoryData (deleteTransaction id0 txs).
Proof.
  intros id0 txs H.
  assert (Hf : filter not_ignored (toggleIgnore id0 txs)
               = filter not_ignored (deleteTransaction id0 txs)).
  { induction txs as [|a txs IH]; simpl; [reflexivity|].
    assert (IH' := IH (fun t Ht => H t (or_intror Ht))).
    destruct (String.eqb (id a) id0) eqn:E; simpl.
    - rewrite not_ignored_flip.
      rewrite (H a (or_introl eq_refl)) by now apply String.eqb_eq.
      simpl. exact IH'.
    - now rewrite IH'. }
  split; [exact Hf|]. split.
  - unfold totals. now rewrite Hf.
  - unfold categoryData.
    assert (Hsplit : forall l,
      filter (fun t => match type t with
                       | Expense => not_ignored t
                       | Income => false
                       end) l
      = filter (fun t => match type t with
                         | Expense => true
                         | Income => false
                         end) (filter not_ignored l)).
    { induction l as [|a l IHl]; simpl; [reflexivity|].
      destruct (not_ignored a); simpl;
        destruct (type a); now rewrite IHl. }
    now rewrite !Hsplit, Hf.
Qed.

Lemma toggleIgnore_counts_as_delete_witness :
  totals (toggleIgnore "manual-1"
            [sample_tx "Lidl" Category.Food])
  = totals (deleteTransaction "manual-1"
              [sample_tx "Lidl" Category.Food]).
Proof.
  apply (toggleIgnore_counts_as_delete "manual-1"
           [sample_tx "Lidl" Category.Food]).
  intros t [<-|[]] _. reflexivity.
Defined.

Section Deleting.

Lemma deleteTransaction_absent (id0 : string) (txs : list Transaction) :
  (forall t, In t txs -> id t <> id0) -> deleteTransaction id0 txs = txs.
Proof.
  induction txs as [|a txs IH]; intros H; simpl; [reflexivity|].
  destruct (String.eqb (id a) id0) eqn:E; simpl.
  - apply String.eqb_eq in E. now elim (H a (or_introl eq_refl)).
  - f_equal. apply IH. intros t Ht. apply H. now right.
Qed.

End Deleting.

(** X21: in a list whose ids are distinct, as every result of a parser is,
    [deleteTransaction] on the id of one of its transactions takes out
    that transaction and nothing else, and keeps the others in their
    order. *)
Theorem deleteTransaction_removes_one :
  forall (txs : list Transaction) (tx : Transaction),
    NoDup (map id txs) ->
    In tx txs ->
    exists before after,
      txs = before ++ tx :: after /\
      deleteTransaction (id tx) txs = before ++ after.
Proof.
  intros txs tx Hnd Hin.
  apply in_split in Hin as (before & after & ->).
  exists before, after. split; [reflexivity|].
  rewrite map_app in Hnd. simpl in Hnd.
  pose proof (NoDup_remove_2 _ _ _ Hnd) as Hnot.
  unfold deleteTransaction. rewrite filter_app. simpl.
  rewrite String.eqb_refl. simpl.
  fold (deleteTransaction (id tx) before).
  fold (deleteTransaction (id tx) after).
  rewrite !deleteTransaction_absent; [reflexivity| |];
    intros t Ht E; apply Hnot, in_or_app; [right|left];
    rewrite <- E; now apply in_map.
Qed.

Lemma deleteTransaction_removes_one_witness :
  exists before after,
    parseMillenniumCSV (fun _ => 0%Z)
      (millennium_header ++ LF ++ pingo_doce_row ++ LF ++ pingo_doce_row)
    = before ++ pingo_doce_tx 0 :: after /\
    deleteTransaction "mil-1-0"
      (parseMillenniumCSV (fun _ => 0%Z)
         (millennium_header ++ LF ++ pingo_doce_row ++ LF ++ pingo_doce_row))
    = before ++ after.
Proof.
  apply (deleteTransaction_removes_one
           (parseMillenniumCSV (fun _ => 0%Z)
              (millennium_header ++ LF ++ pingo_doce_row ++ LF
               ++ pingo_doce_row))
           (pingo_doce_tx 0)).
  - vm_compute. repeat constructor; simpl; intuition discriminate.
  - left. reflexivity.
Defined.

Section CategorySums.

Lemma bump_keys_In (m : list (Category * number)) (c : Category)
      (a : number) (c' : Category) :
  In c' (map fst (bump m c a)) <-> c' = c \/ In c' (map fst m).
Proof.
  induction m as [|[c1 v] m IH]; simpl.
  - intuition.
  - destruct (Category.eqb c1 c) eqn:E; simpl.
    + apply Category_eqb_eq in E. subst. intuition.
    + rewrite IH. intuition.
Qed.

Lemma bump_keys_NoDup (m : list (Category * number)) (c : Category)
      (a : number) :
  NoDup (map fst m) -> NoDup (map fst (bump m c a)).
Proof.
  induction m as [|[c1 v] m IH]; simpl; intros H.
  - repeat constructor. intros [].
  - destruct (Category.eqb c1 c) eqn:E; simpl; [exact H|].
    inversion H as [|? ? Hnin Hnd]; subst.
    constructor; [|now apply IH].
    rewrite bump_keys_In. intros [->|Hin]; [|contradiction].
    assert (Category.eqb c c = true) by now apply Category_eqb_eq.
    congruence.
Qed.

Lemma fold_bump_keys (l : list Transaction) :
  forall m : list (Category * number),
    NoDup (map fst m) ->
    let m' := fold_left (fun m t => bump m (category t) (amount t)) l m in
    NoDup (map fst m') /\
    forall c, In c (map fst m') <->
              In c (map fst m) \/ exists t, In t l /\ category t = c.
Proof.
  induction l as [|a l IH]; intros m Hm; simpl.
  - split; [exact Hm|]. intros c. split; [auto|].
    intros [H|(t & [] & _)]. exact H.
  - destruct (IH (bump m (category a) (amount a))
                 (bump_keys_NoDup _ _ _ Hm)) as [Hnd Hin].
    split; [exact Hnd|]. intros c. rewrite Hin, bump_keys_In. split.
    + intros [[->|H]|(t & Ht & Hc)]; eauto.
    + intros [H|(t & [<-|Ht] & Hc)]; eauto.
Qed.

End CategorySums.

(** X22: [categoryData] has one entry for each category that has an
    Expense that is not ignored, and no other: no category comes twice, an
    Income or an ignored transaction adds none, and there are at most ten
    entries. *)
Theorem categoryData_keys :
  forall txs : list Transaction,
    NoDup (map fst (categoryData txs)) /\
    (forall c, In c (map fst (categoryData txs)) <->
               exists t, In t txs /\ type t = Expense /\
                         not_ignored t = true /\ category t = c) /\
    (List.length (categoryData txs) <= 10)%nat.
Proof.
  intros txs. unfold categoryData.
  destruct (fold_bump_keys
              (filter (fun t => match type t with
                                | Expense => not_ignored t
                                | Income => false
                                end) txs) [] (NoDup_nil _)) as [Hnd Hin].
  cbv zeta in Hnd, Hin.
  split; [exact Hnd|]. split.
  - intros c. rewrite Hin. split.
    + intros [[]|(t & Ht & Hc)]. apply filter_In in Ht as [Ht Hk].
      exists t. destruct (type t); [|discriminate]. auto.
    + intros (t & Ht & Hty & Hn & Hc). right. exists t.
      split; [|exact Hc]. apply filter_In. split; [exact Ht|].
      now rewrite Hty.
  - rewrite <- (length_map fst).
    apply (NoDup_incl_length
             (l' := [Category.Food; Category.Transport; Category.Shopping;
                     Category.Entertainment; Category.Health;
                     Category.Utilities; Category.Income;
                     Category.Education; Category.Feira; Category.Other])
             Hnd).
    intros c _. destruct c; simpl; tauto.
Qed.

(** X23: the pass over all transactions that follows a change of the
    rules keeps every id, amount and type in place, whatever the rules
    are; with rules none of which carries a [shouldIgnore] it keeps every
    [ignored] too, and so leaves [totals] as it was. *)
Theorem reclassify_keeps_totals :
  forall (rules : list AutoRule) (txs : list Transaction),
    map id (reclassify rules txs) = map id txs /\
    map amount (reclassify rules txs) = map amount txs /\
    map type (reclassify rules txs) = map type txs /\
    (Forall (fun r => shouldIgnore r = None) rules ->
     map ignored (reclassify rules txs) = map ignored txs /\
     totals (reclassify rules txs) = totals txs).
Proof.
  intros rules txs.
  assert (Hkeep : forall (A : Type) (f : Transaction -> A),
            (forall t, f (applyRulesToTransaction t rules) = f t) ->
            map f (reclassify rules txs) = map f txs).
  { intros A f Hf. unfold reclassify. rewrite map_map.
    now apply map_ext. }
  split; [apply Hkeep; intros t; apply (applyRules_keeps t rules)|].
  split; [apply Hkeep; intros t; apply (applyRules_keeps t rules)|].
  split; [apply Hkeep; intros t; apply (applyRules_keeps t rules)|].
  intros Hr.
  assert (Hig : forall t,
            ignored (applyRulesToTransaction t rules) = ignored t).
  { intros t. unfold applyRulesToTransaction.
    rewrite scan_rules_find, scan_map_find.
    destruct (find _ rules) as [r|] eqn:Hf.
    - apply find_some in Hf as [Hin _].
      rewrite Forall_forall in Hr. simpl. now rewrite (Hr r Hin).
    - destruct (Category.eqb _ _); [|reflexivity].
      destruct (find _ DEFAULT_CATEGORY_MAP); reflexivity. }
  split; [apply Hkeep; exact Hig|].
  unfold reclassify. apply totals_ext.
  rewrite map_map. apply map_ext. intros t.
  destruct (applyRules_keeps t rules) as (_ & -> & -> & _).
  unfold not_ignored. now rewrite Hig.
Qed.

Lemma reclassify_keeps_totals_witness :
  totals (reclassify
            [sample_rule "lidl" starts_with (Some Category.Food) None]
            [sample_tx "Lidl Lisboa" Category.Other;
             sample_tx "Uber" Category.Other])
  = totals [sample_tx "Lidl Lisboa" Category.Other;
            sample_tx "Uber" Category.Other].
Proof.
  apply (proj2 (proj2 (proj2 (reclassify_keeps_totals
           [sample_rule "lidl" starts_with (Some Category.Food) None]
           [sample_tx "Lidl Lisboa" Category.Other;
            sample_tx "Uber" Category.Other])))).
  repeat constructor.
Defined.

